(** * httptestutil: a shallow embedding of the table-test helper

    The Go package builds test cases from options ([Test]) and runs them
    against a handler ([TestSet.Run]).  The embedding keeps the names of
    the source.  Calls into the Go standard library (encoding/json,
    regexp, net/http) are fields of the class [GoStdlib]; every theorem
    holds for all its instances, and [Ref] gives one instance that can be
    evaluated.

    Conventions: a Go [int] is a [Z] (the package only compares status
    codes); a Go string is a [string] of bytes; the escape sequences of
    the format strings are kept as they are written in the source; a
    function that updates an object through a pointer becomes a function
    from the object before the call to the object after it. *)

From stdpp Require Import base gmap strings list fin_maps pretty.
From Stdlib Require Import ZArith Ascii.

Local Open Scope string_scope.
Local Open Scope list_scope.
Local Set Warnings "-register-all".

(** ** Go values *)

(** An [error] is represented by its message. *)
Definition error := string.

(** A call that returns [(value, err)] with exactly one of them set. *)
Inductive result (A : Type) : Type :=
| Ok (a : A)
| Err (e : error).
Arguments Ok {A} a.
Arguments Err {A} e.

(** An expression that either yields a value or panics. *)
Inductive go (A : Type) : Type :=
| Val (a : A)
| PanicWith (e : error).
Arguments Val {A} a.
Arguments PanicWith {A} e.

Definition go_bind {A B : Type} (x : go A) (k : A -> go B) : go B :=
  match x with
  | Val a => k a
  | PanicWith e => PanicWith e
  end.

(** What encoding/json stores in an [interface{}]: nil, bool, float64,
    string, []interface{} and map[string]interface{}.  A float64 decoded
    from JSON is a finite number, kept here as a rational. *)
Inductive Value : Type :=
| VNil
| VBool (b : bool)
| VFloat64 (q : Qcanon.Qc)
| VString (s : string)
| VSlice (l : list Value)
| VMap (m : gmap string Value).

(** [m[k]] on a map[string]interface{}: the zero value (nil) when absent;
    a nil map behaves as the empty map. *)
Definition map_index (m : gmap string Value) (k : string) : Value :=
  default VNil (m !! k).

(** [x != expected] for [x : interface{}] and [expected : string]: the
    operands are equal only when the dynamic type of [x] is string and
    the strings are equal. *)
Definition iface_neq_string (x : Value) (expected : string) : bool :=
  match x with
  | VString s => negb (String.eqb s expected)
  | _ => true
  end.

(** [x.(string)] with the comma-ok form. *)
Definition assert_string (x : Value) : string * bool :=
  match x with
  | VString s => (s, true)
  | _ => ("", false)
  end.

(** ** net/http data *)

(** http.Header is map[string][]string. *)
Definition Header := gmap string (list string).

Record Request : Type := mkRequest {
  Method : string;
  URL : string;
  ReqHeader : gmap string (list string);
  ReqBody : string
}.

(** httptest.ResponseRecorder: the captured status, headers and body. *)
Record ResponseRecorder : Type := mkRecorder {
  Code : Z;
  HeaderMap : gmap string (list string);
  Body : string
}.

(** httptest.NewRecorder() *)
Definition NewRecorder : ResponseRecorder :=
  {| Code := 200; HeaderMap := ∅; Body := "" |}.

(** handler.ServeHTTP(recorder, req): the handler fills the recorder. *)
Definition Handler := ResponseRecorder -> Request -> ResponseRecorder.

(** ** testing.T *)

(** Arguments of a formatted report. *)
Inductive Arg : Type :=
| AInt (n : Z)
| AStr (s : string)
| AVal (v : Value)
| AErr (e : error).

(** Reports made through a [*testing.T]. *)
Inductive Report : Type :=
| Errorf (format : string) (args : list Arg)
| Fatal (args : list Arg)
| Logf (format : string) (args : list Arg).

Record T : Type := mkT {
  failed : bool;
  output : list Report
}.

Definition newT : T := {| failed := false; output := [] |}.

(** How a call that received the [*testing.T] ends: it returns, it stops
    the goroutine of the sub-test (FailNow, Fatal, SkipNow), or it
    panics. *)
Inductive Ctl : Type :=
| Return
| Goexit
| Panic (v : string).

(** t.Errorf: log the message and mark the test failed; the caller goes
    on. *)
Definition t_Errorf (t : T) (format : string) (args : list Arg) : T :=
  {| failed := true; output := output t ++ [Errorf format args] |}.

(** t.Fatal: log, mark failed and stop the sub-test. *)
Definition t_Fatal (t : T) (args : list Arg) : T * Ctl :=
  ({| failed := true; output := output t ++ [Fatal args] |}, Goexit).

(** ** The types of the package *)

Definition Check := T -> T * Ctl.

Definition ResponseAssertion := T -> ResponseRecorder -> T * Ctl.

Definition RequestModifier := Request -> Request.

Record TestConfig : Type := mkTestConfig {
  name : string;
  method : string;
  route : string;
  body : string;
  modifiers : list RequestModifier;
  assertions : list ResponseAssertion;
  precheck : list Check;
  postcheck : list Check
}.

(** An option receives a pointer to the configuration and updates it in
    place: the record before the call, the record after it. *)
Definition TestOption := TestConfig -> TestConfig.

Definition TestSet := list TestConfig.

(** ** The standard library the package calls *)

Class GoStdlib : Type := {
  (** the values a caller may hand to json.Marshal *)
  Any : Type;
  json_Marshal : Any -> result string;
  (** json.Unmarshal(data, &response) on a nil map[string]interface{}:
      the map afterwards and the error returned *)
  json_Unmarshal : string -> gmap string Value * option error;
  Regexp : Type;
  regexp_Compile : string -> result Regexp;
  Regexp_MatchString : Regexp -> string -> bool;
  (** http.NewRequest(method, url, strings.NewReader(body)) *)
  http_NewRequest : string -> string -> string -> result Request;
  (** textproto.CanonicalMIMEHeaderKey *)
  CanonicalMIMEHeaderKey : string -> string
}.

Section Package.
Context `{GoStdlib}.

(** Header.Set and Header.Get of net/http. *)
Definition Header_Set (h : gmap string (list string)) (key value : string)
  : gmap string (list string) :=
  <[CanonicalMIMEHeaderKey key := [value]]> h.

Definition Header_Get (h : gmap string (list string)) (key : string) : string :=
  match h !! CanonicalMIMEHeaderKey key with
  | Some (v :: _) => v
  | _ => ""
  end.

(** regexp.MatchString of the standard library: compile, then match; a
    pattern that does not compile gives [(false, err)]. *)
Definition regexp_MatchString (pattern s : string) : bool * option error :=
  match regexp_Compile pattern with
  | Err err => (false, Some err)
  | Ok re => (Regexp_MatchString re s, None)
  end.

(** ** Test *)

Definition Test (name : string) (options : list TestOption) : TestConfig :=
  let test := {| name := name; method := ""; route := ""; body := "";
                 modifiers := []; assertions := [];
                 precheck := []; postcheck := [] |} in
  fold_left (fun test option => option test) options test.

(** ** Request modifiers *)

Definition RequestMethod (method : string) : TestOption :=
  fun test =>
    {| name := name test; method := method; route := route test;
       body := body test; modifiers := modifiers test;
       assertions := assertions test;
       precheck := precheck test; postcheck := postcheck test |}.

(** The modifier registered by [RequestHeader]. *)
Definition set_header (header value : string) : RequestModifier :=
  fun req => {| Method := Method req; URL := URL req;
                ReqHeader := Header_Set (ReqHeader req) header value;
                ReqBody := ReqBody req |}.

Definition RequestHeader (header value : string) : TestOption :=
  fun test =>
    {| name := name test; method := method test; route := route test;
       body := body test;
       modifiers := modifiers test ++ [set_header header value];
       assertions := assertions test;
       precheck := precheck test; postcheck := postcheck test |}.

(** The modifier registered by [RequestJSON]. *)
Definition set_content_type_json : RequestModifier :=
  fun req => {| Method := Method req; URL := URL req;
                ReqHeader := Header_Set (ReqHeader req)
                               "Content-Type" "application/json";
                ReqBody := ReqBody req |}.

(** The marshalling happens when [RequestJSON(d)] is evaluated, before
    the option exists; [panic(err)] ends that evaluation. *)
Definition RequestJSON (d : Any) : go TestOption :=
  match json_Marshal d with
  | Err err => PanicWith err
  | Ok s =>
      Val (fun test =>
        {| name := name test; method := method test; route := route test;
           body := s;
           modifiers := modifiers test ++ [set_content_type_json];
           assertions := assertions test;
           precheck := precheck test; postcheck := postcheck test |})
  end.

Definition RequestBody (body : string) : TestOption :=
  fun test =>
    {| name := name test; method := method test; route := route test;
       body := body; modifiers := modifiers test;
       assertions := assertions test;
       precheck := precheck test; postcheck := postcheck test |}.

Definition RequestRel (rel : string) : TestOption :=
  fun test =>
    {| name := name test; method := method test; route := rel;
       body := body test; modifiers := modifiers test;
       assertions := assertions test;
       precheck := precheck test; postcheck := postcheck test |}.

(** ** Response assertions *)

Definition responseAssertion (assertion : ResponseAssertion) : TestOption :=
  fun test =>
    {| name := name test; method := method test; route := route test;
       body := body test; modifiers := modifiers test;
       assertions := assertions test ++ [assertion];
       precheck := precheck test; postcheck := postcheck test |}.

(** The closures handed to [responseAssertion], one per option. *)
Definition ResponseStatus_assertion (expectedStatus : Z) : ResponseAssertion :=
  fun t recorder =>
    if negb (expectedStatus =? Code recorder)%Z
    then (t_Errorf t "Unexpected status code: recieved [%d], want [%d]"
            [AInt (Code recorder); AInt expectedStatus], Return)
    else (t, Return).

Definition ResponseStatus (expectedStatus : Z) : TestOption :=
  responseAssertion (ResponseStatus_assertion expectedStatus).

Definition ResponseBody_assertion (expectedBody : string) : ResponseAssertion :=
  fun t recorder =>
    let responseBody := Body recorder in
    if negb (String.eqb responseBody expectedBody)
    then (t_Errorf t "Unexpected body: received\n\n%v\n\nexpected\n\n%v"
            [AStr responseBody; AStr expectedBody], Return)
    else (t, Return).

Definition ResponseBody (expectedBody : string) : TestOption :=
  responseAssertion (ResponseBody_assertion expectedBody).

Definition ResponseHeader_assertion (header expected : string) : ResponseAssertion :=
  fun t rr =>
    let actual := Header_Get (HeaderMap rr) header in
    if negb (String.eqb actual expected)
    then (t_Errorf t
            "Unexpected response header value for '%s': received '%s' expected '%s'"
            [AStr header; AStr actual; AStr expected], Return)
    else (t, Return).

Definition ResponseHeader (header expected : string) : TestOption :=
  responseAssertion (ResponseHeader_assertion header expected).

Definition ResponseJsonField_assertion (field expected : string) : ResponseAssertion :=
  fun t rr =>
    let responseBody := Body rr in
    let '(response, err) := json_Unmarshal responseBody in
    let t :=
      match err with
      | Some _ =>
          t_Errorf t "Could not JSON parse response body: received\n\n%v"
            [AStr (Body rr)]
      | None => t
      end in
    if iface_neq_string (map_index response field) expected
    then (t_Errorf t
            "Unexpected JSON field value for '%s': received '%s' expected '%s'"
            [AStr field; AVal (map_index response field); AStr expected], Return)
    else (t, Return).

Definition ResponseJsonField (field expected : string) : TestOption :=
  responseAssertion (ResponseJsonField_assertion field expected).

Definition ResponseJsonFieldPattern_assertion (field pattern : string)
  : ResponseAssertion :=
  fun t rr =>
    let responseBody := Body rr in
    let '(response, err) := json_Unmarshal responseBody in
    let t :=
      match err with
      | Some _ =>
          t_Errorf t "Could not JSON parse response body: received\n\n%v"
            [AStr (Body rr)]
      | None => t
      end in
    let '(actual, ok) := assert_string (map_index response field) in
    if ok then
      let '(ok, _) := regexp_MatchString pattern actual in
      if negb ok
      then (t_Errorf t
              "Unexpected JSON field value for '%s': received '%s' expected pattern %s"
              [AStr field; AStr actual; AStr pattern], Return)
      else (t, Return)
    else (t_Errorf t
            "Unexepected missing or non-string JSON field value for '%s'"
            [AStr field], Return).

Definition ResponseJsonFieldPattern (field pattern : string) : TestOption :=
  responseAssertion (ResponseJsonFieldPattern_assertion field pattern).

(** ** Utility *)

Definition Before (check : Check) : TestOption :=
  fun test =>
    {| name := name test; method := method test; route := route test;
       body := body test; modifiers := modifiers test;
       assertions := assertions test;
       precheck := precheck test ++ [check]; postcheck := postcheck test |}.

(** As in the source: the result of the append is stored in [precheck]. *)
Definition After (check : Check) : TestOption :=
  fun test =>
    {| name := name test; method := method test; route := route test;
       body := body test; modifiers := modifiers test;
       assertions := assertions test;
       precheck := postcheck test ++ [check]; postcheck := postcheck test |}.

(** The options a caller can obtain from the package. *)
Inductive package_option : TestOption -> Prop :=
| po_RequestMethod method : package_option (RequestMethod method)
| po_RequestHeader header value : package_option (RequestHeader header value)
| po_RequestJSON d option : RequestJSON d = Val option -> package_option option
| po_RequestBody body : package_option (RequestBody body)
| po_RequestRel rel : package_option (RequestRel rel)
| po_ResponseStatus expectedStatus : package_option (ResponseStatus expectedStatus)
| po_ResponseBody expectedBody : package_option (ResponseBody expectedBody)
| po_ResponseHeader header expected : package_option (ResponseHeader header expected)
| po_ResponseJsonField field expected :
    package_option (ResponseJsonField field expected)
| po_ResponseJsonFieldPattern field pattern :
    package_option (ResponseJsonFieldPattern field pattern)
| po_Before check : package_option (Before check)
| po_After check : package_option (After check).

End Package.

(** ** TestSet.Run *)

(** The calls the runner makes, in the order it makes them.  The trace is
    ghost state: the source keeps no such list, it is what an observer of
    the sub-test would write down. *)
Inductive Event : Type :=
| CallPrecheck (check : Check)
| CallNewRequest (method route body : string)
| CallModifier (modifier : RequestModifier)
| CallServeHTTP (req : Request)
| CallAssert (assert : ResponseAssertion)
| CallPostcheck (check : Check).

(** The state of one sub-test: its [testing.T] and the trace so far. *)
Record St : Type := mkSt {
  t : T;
  trace : list Event
}.

Definition emit (s : St) (e : Event) (t' : T) : St :=
  {| t := t'; trace := trace s ++ [e] |}.

(** [for _, check := range checks { check(t) }]: a check that does not
    return ends the sub-test function. *)
Fixpoint run_checks (ev : Check -> Event) (checks : list Check) (s : St)
  : St * Ctl :=
  match checks with
  | [] => (s, Return)
  | check :: checks' =>
      match check (t s) with
      | (t', Return) => run_checks ev checks' (emit s (ev check) t')
      | (t', c) => (emit s (ev check) t', c)
      end
  end.

(** [for _, modifier := range test.modifiers { modifier(req) }] *)
Fixpoint run_modifiers (mods : list RequestModifier) (req : Request) (s : St)
  : Request * St :=
  match mods with
  | [] => (req, s)
  | modifier :: mods' =>
      run_modifiers mods' (modifier req) (emit s (CallModifier modifier) (t s))
  end.

(** [for _, assert := range test.assertions { assert(t, recorder) }] *)
Fixpoint run_assertions (asserts : list ResponseAssertion)
    (recorder : ResponseRecorder) (s : St) : St * Ctl :=
  match asserts with
  | [] => (s, Return)
  | assert :: asserts' =>
      match assert (t s) recorder with
      | (t', Return) => run_assertions asserts' recorder (emit s (CallAssert assert) t')
      | (t', c) => (emit s (CallAssert assert) t', c)
      end
  end.

Section Runner.
Context `{GoStdlib}.

(** The function literal handed to [t.Run] for one case, started on a
    fresh [testing.T]. *)
Definition subtest (test : TestConfig) (handler : Handler) : St * Ctl :=
  let s := {| t := newT; trace := [] |} in
  match run_checks CallPrecheck (precheck test) s with
  | (s, Return) =>
      let s := emit s (CallNewRequest (method test) (route test) (body test)) (t s) in
      match http_NewRequest (method test) (route test) (body test) with
      | Err err =>
          let '(t', c) := t_Fatal (t s) [AErr err] in
          ({| t := t'; trace := trace s |}, c)
      | Ok req =>
          let '(req, s) := run_modifiers (modifiers test) req s in
          let recorder := NewRecorder in
          let s := emit s (CallServeHTTP req) (t s) in
          let recorder := handler recorder req in
          match run_assertions (assertions test) recorder s with
          | (s, Return) => run_checks CallPostcheck (postcheck test) s
          | (s, c) => (s, c)
          end
      end
  | (s, c) => (s, c)
  end.

(** What the test host reports for a sub-test. *)
Definition reports_failure (r : St * Ctl) : bool :=
  failed (t (fst r)) ||
  match snd r with
  | Panic _ => true
  | _ => false
  end.

Definition reports_success (r : St * Ctl) : bool := negb (reports_failure r).

(** [for _, test := range tests { t.Run(test.name, ...) }]: one named
    sub-test per case, in order; a panic ends the whole run. *)
Fixpoint Run (tests : TestSet) (handler : Handler)
  : list (string * (St * Ctl)) :=
  match tests with
  | [] => []
  | test :: tests' =>
      let r := subtest test handler in
      (name test, r) ::
      match snd r with
      | Panic _ => []
      | _ => Run tests' handler
      end
  end.

(** The request at the handler, when the sub-test got that far. *)
Definition dispatched (r : St * Ctl) : list Request :=
  omap (fun e => match e with CallServeHTTP req => Some req | _ => None end)
       (trace (fst r)).

(** The sequence of calls the specification gives for a case that runs
    to its end; [Run_order] compares the trace of [subtest] with it. *)
Definition steps (test : TestConfig) (req : Request) : list Event :=
  map CallPrecheck (precheck test) ++
  [CallNewRequest (method test) (route test) (body test)] ++
  map CallModifier (modifiers test) ++
  [CallServeHTTP (fold_left (fun req modifier => modifier req) (modifiers test) req)] ++
  map CallAssert (assertions test) ++
  map CallPostcheck (postcheck test).

End Runner.

(** ** The steps of a case, as the specification lists them

    This part follows the numbered steps of the specification of the
    runner, not the source: a flat list of steps for a case, and a
    machine that carries them out one after the other.  [Run_executes_plan]
    compares [subtest], which follows the source, with it. *)
Inductive Step : Type :=
| StepPrecheck (check : Check)
| StepNewRequest (method route body : string)
| StepModifier (modifier : RequestModifier)
| StepServeHTTP
| StepAssertion (assert : ResponseAssertion)
| StepPostcheck (check : Check).

(** All pre-checks, the construction of the request, all modifiers, one
    dispatch, all assertions, all post-checks; each list in registration
    order. *)
Definition plan (test : TestConfig) : list Step :=
  map StepPrecheck (precheck test) ++
  [StepNewRequest (method test) (route test) (body test)] ++
  map StepModifier (modifiers test) ++
  [StepServeHTTP] ++
  map StepAssertion (assertions test) ++
  map StepPostcheck (postcheck test).

(** What a sub-test holds while it runs: its [testing.T], the request
    once it is constructed, the recorder once the handler has answered,
    and the calls made so far. *)
Record Machine : Type := mkMachine {
  m_t : T;
  m_req : option Request;
  m_rec : option ResponseRecorder;
  m_trace : list Event
}.

Section Plan.
Context `{GoStdlib}.

(** One step.  A step that needs the request or the recorder before it
    exists dereferences a nil pointer. *)
Definition step (handler : Handler) (st : Step) (m : Machine) : Machine * Ctl :=
  match st with
  | StepPrecheck check =>
      let '(t', c) := check (m_t m) in
      ({| m_t := t'; m_req := m_req m; m_rec := m_rec m;
          m_trace := m_trace m ++ [CallPrecheck check] |}, c)
  | StepNewRequest method route body =>
      let tr := m_trace m ++ [CallNewRequest method route body] in
      match http_NewRequest method route body with
      | Err err =>
          let '(t', c) := t_Fatal (m_t m) [AErr err] in
          ({| m_t := t'; m_req := None; m_rec := m_rec m; m_trace := tr |}, c)
      | Ok req =>
          ({| m_t := m_t m; m_req := Some req; m_rec := m_rec m;
              m_trace := tr |}, Return)
      end
  | StepModifier modifier =>
      match m_req m with
      | Some req =>
          ({| m_t := m_t m; m_req := Some (modifier req); m_rec := m_rec m;
              m_trace := m_trace m ++ [CallModifier modifier] |}, Return)
      | None => (m, Panic "invalid memory address or nil pointer dereference")
      end
  | StepServeHTTP =>
      match m_req m with
      | Some req =>
          ({| m_t := m_t m; m_req := Some req;
              m_rec := Some (handler NewRecorder req);
              m_trace := m_trace m ++ [CallServeHTTP req] |}, Return)
      | None => (m, Panic "invalid memory address or nil pointer dereference")
      end
  | StepAssertion assert =>
      match m_rec m with
      | Some recorder =>
          let '(t', c) := assert (m_t m) recorder in
          ({| m_t := t'; m_req := m_req m; m_rec := m_rec m;
              m_trace := m_trace m ++ [CallAssert assert] |}, c)
      | None => (m, Panic "invalid memory address or nil pointer dereference")
      end
  | StepPostcheck check =>
      let '(t', c) := check (m_t m) in
      ({| m_t := t'; m_req := m_req m; m_rec := m_rec m;
          m_trace := m_trace m ++ [CallPostcheck check] |}, c)
  end.

(** The steps in list order; a step that does not return ends the run. *)
Fixpoint execute (handler : Handler) (steps : list Step) (m : Machine)
  : Machine * Ctl :=
  match steps with
  | [] => (m, Return)
  | st :: steps' =>
      match step handler st m with
      | (m', Return) => execute handler steps' m'
      | (m', c) => (m', c)
      end
  end.

Definition run_plan (test : TestConfig) (handler : Handler) : St * Ctl :=
  let '(m, c) :=
    execute handler (plan test)
      {| m_t := newT; m_req := None; m_rec := None; m_trace := [] |} in
  ({| t := m_t m; trace := m_trace m |}, c).

End Plan.

(** ** A reference instance of the standard library

    A small, executable stand-in for the library calls, used to evaluate
    the package on concrete inputs.  It covers a fragment: JSON without
    escapes, fractions and exponents; regular expressions made of literal
    characters, [.] and a postfix [*]; URLs rejected only for a control
    byte.  Inputs outside the fragment are reported as errors, and the
    text of a syntax error is not the one of the Go library. *)
Module Ref.

Definition code (c : ascii) : N := N_of_ascii c.

Definition in_range (lo hi : N) (c : ascii) : bool :=
  (lo <=? code c)%N && (code c <=? hi)%N.

Definition is_upper : ascii -> bool := in_range 65 90.
Definition is_lower : ascii -> bool := in_range 97 122.
Definition is_digit : ascii -> bool := in_range 48 57.

Definition to_upper (c : ascii) : ascii :=
  if is_lower c then ascii_of_N (code c - 32) else c.

Definition to_lower (c : ascii) : ascii :=
  if is_upper c then ascii_of_N (code c + 32) else c.

(** The double quote and the backslash. *)
Definition dquote : ascii := "034"%char.
Definition backslash : ascii := "092"%char.

Definition quote (s : string) : string :=
  String dquote s +:+ String dquote "".

(** The token bytes of RFC 7230, as in httpguts.IsTokenRune and
    textproto.validHeaderFieldByte. *)
Definition is_token (c : ascii) : bool :=
  is_upper c || is_lower c || is_digit c ||
  existsb (Ascii.eqb c) (String.list_ascii_of_string "!#$%&'*+-.^_`|~").

Definition all_bytes (p : ascii -> bool) (s : string) : bool :=
  forallb p (String.list_ascii_of_string s).

(** textproto.CanonicalMIMEHeaderKey: a key with a byte that is not a
    token byte is returned as it is; otherwise the first letter and each
    letter after a hyphen are upper-cased, the others lower-cased. *)
Fixpoint canonical (upper : bool) (s : string) : string :=
  match s with
  | EmptyString => EmptyString
  | String c s' =>
      String (if upper then to_upper c else to_lower c)
             (canonical (Ascii.eqb c "-") s')
  end.

Definition canonicalMIMEHeaderKey (s : string) : string :=
  if all_bytes is_token s then canonical true s else s.

(** net/http validMethod. *)
Definition validMethod (method : string) : bool :=
  negb (String.eqb method "") && all_bytes is_token method.

Definition is_ctl (c : ascii) : bool :=
  (code c <? 32)%N || (code c =? 127)%N.

(** http.NewRequest: an empty method means GET; the method must be a
    token; url.Parse refuses a URL with a control byte. *)
Definition NewRequest (method url body : string) : result Request :=
  let method := if String.eqb method "" then "GET" else method in
  if negb (validMethod method)
  then Err ("net/http: invalid method " +:+ quote method)
  else if negb (all_bytes (fun c => negb (is_ctl c)) url)
  then Err "net/url: invalid control character in URL"
  else Ok {| Method := method; URL := url; ReqHeader := ∅; ReqBody := body |}.

(** *** encoding/json *)

(** The values handed to json.Marshal in the examples: integers,
    booleans, structs with integer fields, and a channel, which
    encoding/json cannot encode. *)
Inductive RefAny : Type :=
| AnyInt (n : Z)
| AnyBool (b : bool)
| AnyStruct (fields : list (string * Z))
| AnyChan.

Definition marshal_field (f : string * Z) : string :=
  quote (fst f) +:+ ":" +:+ pretty (snd f).

Fixpoint join (sep : string) (l : list string) : string :=
  match l with
  | [] => ""
  | [x] => x
  | x :: l' => x +:+ sep +:+ join sep l'
  end.

Definition Marshal (d : RefAny) : result string :=
  match d with
  | AnyInt n => Ok (pretty n)
  | AnyBool b => Ok (if b then "true" else "false")
  | AnyStruct fields => Ok ("{" +:+ join "," (map marshal_field fields) +:+ "}")
  | AnyChan => Err "json: unsupported type: chan int"
  end.

Definition is_ws (c : ascii) : bool :=
  existsb (N.eqb (code c)) [32; 9; 10; 13]%N.

Fixpoint skip_ws (s : string) : string :=
  match s with
  | String c s' => if is_ws c then skip_ws s' else s
  | EmptyString => s
  end.

(** The characters of a string literal after its opening quote. *)
Fixpoint parse_chars (s : string) : option (string * string) :=
  match s with
  | EmptyString => None
  | String c s' =>
      if Ascii.eqb c dquote then Some ("", s')
      else if Ascii.eqb c backslash || (code c <? 32)%N then None
      else match parse_chars s' with
           | Some (str, rest) => Some (String c str, rest)
           | None => None
           end
  end.

Fixpoint parse_digits (acc : Z) (s : string) : Z * string :=
  match s with
  | String c s' =>
      if is_digit c
      then parse_digits (10 * acc + Z.of_N (code c - 48)) s'
      else (acc, s)
  | EmptyString => (acc, s)
  end.

(** An integer literal: [0], or a non-zero digit followed by digits. *)
Definition parse_int (s : string) : option (Z * string) :=
  match s with
  | String c s' =>
      if Ascii.eqb c "0" then Some (0%Z, s')
      else if is_digit c then Some (parse_digits 0 s)
      else None
  | EmptyString => None
  end.

Definition strip_prefix (p s : string) : option string :=
  if String.prefix p s
  then Some (String.substring (String.length p)
               (String.length s - String.length p) s)
  else None.

Definition number (n : Z) : Value := VFloat64 (Qcanon.Q2Qc (QArith_base.inject_Z n)).

(** A recursive-descent decoder.  Every call spends one unit of fuel;
    [None] is a syntax error (or the fuel ran out). *)
Fixpoint parse_value (fuel : nat) (s : string) : option (Value * string) :=
  match fuel with
  | O => None
  | S fuel =>
      match skip_ws s with
      | EmptyString => None
      | String c s' as s0 =>
          if Ascii.eqb c "{" then
            match skip_ws s' with
            | String c' s'' =>
                if Ascii.eqb c' "}" then Some (VMap ∅, s'')
                else match parse_members fuel ∅ s' with
                     | Some (m, rest) => Some (VMap m, rest)
                     | None => None
                     end
            | EmptyString => None
            end
          else if Ascii.eqb c "[" then
            match skip_ws s' with
            | String c' s'' =>
                if Ascii.eqb c' "]" then Some (VSlice [], s'')
                else match parse_elements fuel s' with
                     | Some (l, rest) => Some (VSlice l, rest)
                     | None => None
                     end
            | EmptyString => None
            end
          else if Ascii.eqb c dquote then
            match parse_chars s' with
            | Some (str, rest) => Some (VString str, rest)
            | None => None
            end
          else if Ascii.eqb c "-" then
            match parse_int s' with
            | Some (n, rest) => Some (number (- n), rest)
            | None => None
            end
          else if is_digit c then
            match parse_int s0 with
            | Some (n, rest) => Some (number n, rest)
            | None => None
            end
          else
            match strip_prefix "null" s0, strip_prefix "true" s0,
                  strip_prefix "false" s0 with
            | Some rest, _, _ => Some (VNil, rest)
            | _, Some rest, _ => Some (VBool true, rest)
            | _, _, Some rest => Some (VBool false, rest)
            | _, _, _ => None
            end
      end
  end
with parse_elements (fuel : nat) (s : string) : option (list Value * string) :=
  match fuel with
  | O => None
  | S fuel =>
      match parse_value fuel s with
      | Some (v, rest) =>
          match skip_ws rest with
          | String c rest' =>
              if Ascii.eqb c "]" then Some ([v], rest')
              else if Ascii.eqb c "," then
                match parse_elements fuel rest' with
                | Some (l, rest'') => Some (v :: l, rest'')
                | None => None
                end
              else None
          | EmptyString => None
          end
      | None => None
      end
  end
with parse_members (fuel : nat) (m : gmap string Value) (s : string)
  : option (gmap string Value * string) :=
  match fuel with
  | O => None
  | S fuel =>
      match skip_ws s with
      | String q s' =>
          if Ascii.eqb q dquote then
            match parse_chars s' with
            | Some (key, rest) =>
                match skip_ws rest with
                | String c rest' =>
                    if Ascii.eqb c ":" then
                      match parse_value fuel rest' with
                      | Some (v, rest'') =>
                          match skip_ws rest'' with
                          | String d rest3 =>
                              if Ascii.eqb d "}" then Some (<[key := v]> m, rest3)
                              else if Ascii.eqb d ","
                              then parse_members fuel (<[key := v]> m) rest3
                              else None
                          | EmptyString => None
                          end
                      | None => None
                      end
                    else None
                | EmptyString => None
                end
            | None => None
            end
          else None
      | EmptyString => None
      end
  end.

(** How encoding/json names the kind of a value in a type error. *)
Definition kind (v : Value) : string :=
  match v with
  | VNil => "null"
  | VBool _ => "bool"
  | VFloat64 _ => "number"
  | VString _ => "string"
  | VSlice _ => "array"
  | VMap _ => "object"
  end.

(** json.Unmarshal into a nil map[string]interface{}: an object fills
    the map, [null] leaves it nil, any other value is a type error, and
    text that is not one JSON value is a syntax error. *)
Definition Unmarshal (data : string) : gmap string Value * option error :=
  match parse_value (2 * String.length data + 2) data with
  | Some (v, rest) =>
      match skip_ws rest with
      | EmptyString =>
          match v with
          | VMap m => (m, None)
          | VNil => (∅, None)
          | _ => (∅, Some ("json: cannot unmarshal " +:+ kind v +:+
                           " into Go value of type map[string]interface {}"))
          end
      | _ => (∅, Some "invalid character after top-level value")
      end
  | None => (∅, Some "invalid character or unexpected end of JSON input")
  end.

(** *** regexp *)

Inductive Atom : Type :=
| Lit (c : ascii)
| AnyChar.

(** An atom, and whether a [*] follows it. *)
Definition Item : Type := Atom * bool.

Definition is_meta (c : ascii) : bool :=
  existsb (Ascii.eqb c) (String.list_ascii_of_string "()[]{}+?|^$") ||
  Ascii.eqb c backslash.

(** [*] needs an argument and cannot follow another [*]. *)
Fixpoint compile_items (s : string) : result (list Item) :=
  match s with
  | EmptyString => Ok []
  | String c s' =>
      if Ascii.eqb c "*" then Err "error parsing regexp: missing argument to repetition operator: `*`"
      else if is_meta c then Err "outside the fragment of the reference instance"
      else
        let atom := if Ascii.eqb c "." then AnyChar else Lit c in
        match s' with
        | String c' s'' =>
            if Ascii.eqb c' "*" then
              match s'' with
              | String c'' _ =>
                  if Ascii.eqb c'' "*"
                  then Err "error parsing regexp: invalid nested repetition operator: `**`"
                  else match compile_items s'' with
                       | Ok items => Ok ((atom, true) :: items)
                       | Err e => Err e
                       end
              | EmptyString => Ok [(atom, true)]
              end
            else match compile_items s' with
                 | Ok items => Ok ((atom, false) :: items)
                 | Err e => Err e
                 end
        | EmptyString => Ok [(atom, false)]
        end
  end.

Definition atom_matches (a : Atom) (c : ascii) : bool :=
  match a with
  | Lit c' => Ascii.eqb c c'
  | AnyChar => negb (N.eqb (code c) 10)
  end.

(** Whether the items match a prefix of the text. *)
Fixpoint match_here (re : list Item) : string -> bool :=
  match re with
  | [] => fun _ => true
  | (a, false) :: re' =>
      fun s =>
        match s with
        | String c s' => atom_matches a c && match_here re' s'
        | EmptyString => false
        end
  | (a, true) :: re' =>
      fix star (s : string) : bool :=
        match_here re' s ||
        match s with
        | String c s' => atom_matches a c && star s'
        | EmptyString => false
        end
  end.

(** Search semantics: a match may start anywhere in the text. *)
Fixpoint MatchString (re : list Item) (s : string) : bool :=
  match_here re s ||
  match s with
  | String _ s' => MatchString re s'
  | EmptyString => false
  end.

#[export] Instance stdlib : GoStdlib := {|
  Any := RefAny;
  json_Marshal := Marshal;
  json_Unmarshal := Unmarshal;
  Regexp := list Item;
  regexp_Compile := compile_items;
  Regexp_MatchString := MatchString;
  http_NewRequest := NewRequest;
  CanonicalMIMEHeaderKey := canonicalMIMEHeaderKey
|}.

End Ref.

(** * Properties *)

(** The response used in the examples: a status and a body. *)
Definition response (code : Z) (body : string) : ResponseRecorder :=
  {| Code := code; HeaderMap := ∅; Body := body |}.

(** A handler that always answers with the given status and body. *)
Definition always (code : Z) (body : string) : Handler :=
  fun recorder _ =>
    {| Code := code; HeaderMap := HeaderMap recorder; Body := body |}.

(** A check that does nothing. *)
Definition passing_check : Check := fun t => (t, Return).

(** A check that reports a failure and returns. *)
Definition failing_check (msg : string) : Check :=
  fun t => (t_Errorf t msg [], Return).

(** A check that neither stops the sub-test nor changes whether it has
    failed. *)
Definition quiet (check : Check) : Prop :=
  forall t, snd (check t) = Return /\ failed (fst (check t)) = failed t.

(** Callbacks that come back to the runner. *)
Definition check_returns (check : Check) : Prop :=
  forall t, snd (check t) = Return.

Definition assertion_returns (assert : ResponseAssertion) : Prop :=
  forall t recorder, snd (assert t recorder) = Return.

(** Response bodies of the examples: [{"K": 5}] and [{"K": "abc"}]. *)
Definition body_K_number : string :=
  "{" +:+ Ref.quote "K" +:+ ": 5}".

Definition body_K_string : string :=
  "{" +:+ Ref.quote "K" +:+ ": " +:+ Ref.quote "abc" +:+ "}".

(** A case with one entry in each of its four lists. *)
Definition full_case : TestConfig :=
  {| name := "full"; method := "GET"; route := "/abc"; body := "";
     modifiers := [@set_header Ref.stdlib "X" "1"];
     assertions := [ResponseStatus_assertion 200];
     precheck := [passing_check];
     postcheck := [failing_check "teardown"] |}.

(** A handler that answers 200 with, as body, the value it finds under
    the given header of the request. *)
Definition echo_header (header : string) : Handler :=
  fun recorder req =>
    {| Code := 200; HeaderMap := HeaderMap recorder;
       Body := @Header_Get Ref.stdlib (ReqHeader req) header |}.

(** A case whose every callback leaves a mark in the output. *)
Definition probe_case : TestConfig :=
  {| name := "probe"; method := "GET"; route := "/abc"; body := "";
     modifiers := [@set_header Ref.stdlib "X" "1"; @set_header Ref.stdlib "X" "2"];
     assertions := [ResponseBody_assertion "0"; ResponseStatus_assertion 404];
     precheck := [failing_check "pre1"; failing_check "pre2"];
     postcheck := [failing_check "post"] |}.

(** ** The earlier version of the package

    The source file carries, after the current version, an earlier one
    without checks: a configuration of six fields, [Run] without the two
    check loops, and the options [RequestMethod], [ResponseStatus] and
    [ResponseBody].  The closures of the two assertions are the same
    text as in the current version. *)
Module Old.

Record TestConfig : Type := mkTestConfig {
  name : string;
  method : string;
  route : string;
  body : string;
  modifiers : list RequestModifier;
  assertions : list ResponseAssertion
}.

Definition TestOption := TestConfig -> TestConfig.

Definition TestSet := list TestConfig.

Section Package.
Context `{GoStdlib}.

Definition subtest (test : TestConfig) (handler : Handler) : St * Ctl :=
  let s := {| t := newT; trace := [] |} in
  let s := emit s (CallNewRequest (method test) (route test) (body test)) (t s) in
  match http_NewRequest (method test) (route test) (body test) with
  | Err err =>
      let '(t', c) := t_Fatal (t s) [AErr err] in
      ({| t := t'; trace := trace s |}, c)
  | Ok req =>
      let '(req, s) := run_modifiers (modifiers test) req s in
      let recorder := NewRecorder in
      let s := emit s (CallServeHTTP req) (t s) in
      let recorder := handler recorder req in
      run_assertions (assertions test) recorder s
  end.

Fixpoint Run (tests : TestSet) (handler : Handler)
  : list (string * (St * Ctl)) :=
  match tests with
  | [] => []
  | test :: tests' =>
      let r := subtest test handler in
      (name test, r) ::
      match snd r with
      | Panic _ => []
      | _ => Run tests' handler
      end
  end.

Definition Test (name : string) (options : list TestOption) : TestConfig :=
  let test := {| name := name; method := ""; route := ""; body := "";
                 modifiers := []; assertions := [] |} in
  fold_left (fun test option => option test) options test.

Definition RequestMethod (method : string) : TestOption :=
  fun test =>
    {| name := name test; method := method; route := route test;
       body := body test; modifiers := modifiers test;
       assertions := assertions test |}.

Definition responseAssertion (assertion : ResponseAssertion) : TestOption :=
  fun test =>
    {| name := name test; method := method test; route := route test;
       body := body test; modifiers := modifiers test;
       assertions := assertions test ++ [assertion] |}.

Definition ResponseStatus (expectedStatus : Z) : TestOption :=
  responseAssertion (ResponseStatus_assertion expectedStatus).

Definition ResponseBody (expectedBody : string) : TestOption :=
  responseAssertion (ResponseBody_assertion expectedBody).

End Package.

End Old.

(** The six fields the two versions share. *)
Definition forget (test : TestConfig) : Old.TestConfig :=
  {| Old.name := name test; Old.method := method test;
     Old.route := route test; Old.body := body test;
     Old.modifiers := modifiers test; Old.assertions := assertions test |}.

(** An option of the earlier version, acting on the six shared fields of
    a current configuration and leaving the checks alone. *)
Definition upgrade (option : Old.TestOption) : TestOption :=
  fun test =>
    let old := option (forget test) in
    {| name := Old.name old; method := Old.method old;
       route := Old.route old; body := Old.body old;
       modifiers := Old.modifiers old; assertions := Old.assertions old;
       precheck := precheck test; postcheck := postcheck test |}.

(** ** Vocabulary of the further properties *)

(** The assertion closures the package can register. *)
Inductive package_assertion `{GoStdlib} : ResponseAssertion -> Prop :=
| pa_ResponseStatus expectedStatus :
    package_assertion (ResponseStatus_assertion expectedStatus)
| pa_ResponseBody expectedBody :
    package_assertion (ResponseBody_assertion expectedBody)
| pa_ResponseHeader header expected :
    package_assertion (ResponseHeader_assertion header expected)
| pa_ResponseJsonField field expected :
    package_assertion (ResponseJsonField_assertion field expected)
| pa_ResponseJsonFieldPattern field pattern :
    package_assertion (ResponseJsonFieldPattern_assertion field pattern).

(** What an assertion reports about a response, on a fresh [testing.T]. *)
Definition reports_of (assert : ResponseAssertion) (rr : ResponseRecorder)
  : list Report :=
  output (fst (assert newT rr)).

Definition nonempty {A : Type} (l : list A) : bool :=
  match l with
  | [] => false
  | _ :: _ => true
  end.

(** An option that leaves one field of the configuration as it is. *)
Definition keeps {A : Type} (field : TestConfig -> A) (option : TestOption)
  : Prop :=
  forall test, field (option test) = field test.

(** The request the handler receives: the constructed one after every
    modifier. *)
Definition modified (test : TestConfig) (req : Request) : Request :=
  fold_left (fun req modifier => modifier req) (modifiers test) req.

(** The header option for a pair of a key and a value. *)
Definition header_option `{GoStdlib} (hv : string * string) : TestOption :=
  RequestHeader (fst hv) (snd hv).

(** ** The JSON assertions *)

Section JsonAssertions.
Context `{GoStdlib}.

Lemma map_index_lookup (m : gmap string Value) (k : string) (v : Value) :
  m !! k = Some v -> map_index m k = v.
Proof. intros Hk. unfold map_index. now rewrite Hk. Qed.

Lemma map_index_empty (k : string) : map_index ∅ k = VNil.
Proof. unfold map_index. now rewrite lookup_empty. Qed.

Lemma iface_neq_string_other (v : Value) (expected : string) :
  (forall s, v <> VString s) -> iface_neq_string v expected = true.
Proof. intros Hv. destruct v; try reflexivity. now destruct (Hv s). Qed.

Lemma assert_string_other (v : Value) :
  (forall s, v <> VString s) -> assert_string v = ("", false).
Proof. intros Hv. destruct v; try reflexivity. now destruct (Hv s). Qed.

Lemma regexp_MatchString_invalid (pattern s : string) (e : error) :
  regexp_Compile pattern = Err e ->
  regexp_MatchString pattern s = (false, Some e).
Proof. intros Hc. unfold regexp_MatchString. now rewrite Hc. Qed.





End JsonAssertions.

(** ** The loops of the runner *)

Lemma run_checks_trace (ev : Check -> Event) (checks : list Check) (s : St) :
  exists l,
    trace (fst (run_checks ev checks s)) = trace s ++ l /\
    l `prefix_of` map ev checks /\
    (snd (run_checks ev checks s) = Return -> l = map ev checks).
Proof.
  revert s. induction checks as [| check checks IH]; intros s; cbn.
  - exists []. rewrite app_nil_r. repeat split. apply prefix_nil.
  - destruct (check (t s)) as [t' c] eqn:Hc.
    destruct c.
    + destruct (IH (emit s (ev check) t')) as (l & Htr & Hpre & Hret).
      exists (ev check :: l). cbn in Htr. rewrite Htr, <- app_assoc.
      repeat split; [now apply prefix_cons | intros Hr; now rewrite Hret].
    + exists [ev check]. cbn. repeat split; [| discriminate].
      apply prefix_cons, prefix_nil.
    + exists [ev check]. cbn. repeat split; [| discriminate].
      apply prefix_cons, prefix_nil.
Qed.

Lemma run_checks_returns (ev : Check -> Event) (checks : list Check) (s : St) :
  (forall check, check ∈ checks -> check_returns check) ->
  snd (run_checks ev checks s) = Return.
Proof.
  revert s. induction checks as [| check checks IH]; intros s Hall; cbn.
  - reflexivity.
  - pose proof (Hall check (list_elem_of_here _ _) (t s)) as Hr.
    destruct (check (t s)) as [t' c]. cbn in Hr. subst c.
    apply IH. intros c Hc. apply Hall. now apply list_elem_of_further.
Qed.

Lemma run_checks_quiet (ev : Check -> Event) (checks : list Check) (s : St) :
  (forall check, check ∈ checks -> quiet check) ->
  snd (run_checks ev checks s) = Return /\
  failed (t (fst (run_checks ev checks s))) = failed (t s).
Proof.
  revert s. induction checks as [| check checks IH]; intros s Hall; cbn.
  - split; reflexivity.
  - destruct (Hall check (list_elem_of_here _ _) (t s)) as [Hr Hf].
    destruct (check (t s)) as [t' c]. cbn in Hr, Hf. subst c.
    destruct (IH (emit s (ev check) t')) as [Hr' Hf'].
    { intros c Hc. apply Hall. now apply list_elem_of_further. }
    split; [exact Hr' |]. rewrite Hf'. exact Hf.
Qed.

Lemma run_modifiers_spec (mods : list RequestModifier) (req : Request) (s : St) :
  run_modifiers mods req s =
    (fold_left (fun req modifier => modifier req) mods req,
     {| t := t s; trace := trace s ++ map CallModifier mods |}).
Proof.
  revert req s. induction mods as [| modifier mods IH]; intros req s; cbn.
  - rewrite app_nil_r. now destruct s.
  - rewrite IH. cbn. now rewrite <- app_assoc.
Qed.

Lemma run_assertions_trace (asserts : list ResponseAssertion)
    (recorder : ResponseRecorder) (s : St) :
  exists l,
    trace (fst (run_assertions asserts recorder s)) = trace s ++ l /\
    l `prefix_of` map CallAssert asserts /\
    (snd (run_assertions asserts recorder s) = Return ->
     l = map CallAssert asserts).
Proof.
  revert s. induction asserts as [| assert asserts IH]; intros s; cbn.
  - exists []. rewrite app_nil_r. repeat split. apply prefix_nil.
  - destruct (assert (t s) recorder) as [t' c] eqn:Hc.
    destruct c.
    + destruct (IH (emit s (CallAssert assert) t')) as (l & Htr & Hpre & Hret).
      exists (CallAssert assert :: l). cbn in Htr. rewrite Htr, <- app_assoc.
      repeat split; [now apply prefix_cons | intros Hr; now rewrite Hret].
    + exists [CallAssert assert]. cbn. repeat split; [| discriminate].
      apply prefix_cons, prefix_nil.
    + exists [CallAssert assert]. cbn. repeat split; [| discriminate].
      apply prefix_cons, prefix_nil.
Qed.

Lemma run_assertions_returns (asserts : list ResponseAssertion)
    (recorder : ResponseRecorder) (s : St) :
  (forall assert, assert ∈ asserts -> assertion_returns assert) ->
  snd (run_assertions asserts recorder s) = Return.
Proof.
  revert s. induction asserts as [| assert asserts IH]; intros s Hall; cbn.
  - reflexivity.
  - pose proof (Hall assert (list_elem_of_here _ _) (t s) recorder) as Hr.
    destruct (assert (t s) recorder) as [t' c]. cbn in Hr. subst c.
    apply IH. intros c Hc. apply Hall. now apply list_elem_of_further.
Qed.

(** ** The order of a sub-test *)

(** Peels the common front of the two sides of a prefix goal. *)
Ltac prefix_steps :=
  cbn [app];
  repeat match goal with
         | |- (_ :: _) `prefix_of` (_ :: _) => apply prefix_cons
         | |- (?k ++ _) `prefix_of` (?k ++ _) => apply prefix_app
         end.

Section Order.
Context `{GoStdlib}.

Lemma subtest_trace_construction_fails
    (test : TestConfig) (handler : Handler) (err : error) :
  http_NewRequest (method test) (route test) (body test) = Err err ->
  trace (fst (subtest test handler)) `prefix_of`
    map CallPrecheck (precheck test) ++
    [CallNewRequest (method test) (route test) (body test)].
Proof.
  intros Hnew. unfold subtest. rewrite Hnew.
  destruct (run_checks_trace CallPrecheck (precheck test)
              {| t := newT; trace := [] |}) as (l1 & Ht1 & Hp1 & Hr1).
  destruct (run_checks CallPrecheck (precheck test) _) as [s1 c1].
  cbn in Ht1, Hr1. destruct c1; cbn; rewrite Ht1.
  - now rewrite Hr1.
  - now apply prefix_app_r.
  - now apply prefix_app_r.
Qed.

Lemma subtest_trace_constructed
    (test : TestConfig) (handler : Handler) (req : Request) :
  http_NewRequest (method test) (route test) (body test) = Ok req ->
  trace (fst (subtest test handler)) `prefix_of` steps test req /\
  (snd (subtest test handler) = Return ->
   trace (fst (subtest test handler)) = steps test req).
Proof.
  intros Hnew. unfold subtest, steps. rewrite Hnew.
  destruct (run_checks_trace CallPrecheck (precheck test)
              {| t := newT; trace := [] |}) as (l1 & Ht1 & Hp1 & Hr1).
  destruct (run_checks CallPrecheck (precheck test) _) as [s1 c1].
  cbn in Ht1, Hr1.
  destruct c1; cbn; try (rewrite Ht1; split; [now apply prefix_app_r | discriminate]).
  rewrite run_modifiers_spec. cbn.
  set (req' := fold_left (fun req modifier => modifier req) (modifiers test) req).
  set (s2 := emit _ (CallServeHTTP req') _).
  destruct (run_assertions_trace (assertions test) (handler NewRecorder req') s2)
    as (l3 & Ht3 & Hp3 & Hr3).
  destruct (run_assertions (assertions test) _ s2) as [s3 c3].
  cbn [fst snd] in Ht3, Hr3. rewrite Hr1 in Ht1 by reflexivity.
  assert (Hs2 : trace s2 =
            map CallPrecheck (precheck test) ++
            [CallNewRequest (method test) (route test) (body test)] ++
            map CallModifier (modifiers test) ++ [CallServeHTTP req']).
  { subst s2. cbn. rewrite Ht1. now rewrite <- !app_assoc. }
  rewrite Hs2 in Ht3.
  destruct c3; cbn [fst snd];
    try (rewrite Ht3, <- !app_assoc; split; [| discriminate];
         prefix_steps; now apply prefix_app_r).
  destruct (run_checks_trace CallPostcheck (postcheck test) s3)
    as (l4 & Ht4 & Hp4 & Hr4).
  rewrite Ht4, Ht3, Hr3 by reflexivity. rewrite <- !app_assoc. split.
  - now prefix_steps.
  - intros Hret. now rewrite Hr4.
Qed.

Lemma subtest_returns (test : TestConfig) (handler : Handler) (req : Request) :
  http_NewRequest (method test) (route test) (body test) = Ok req ->
  (forall check, check ∈ precheck test ++ postcheck test -> check_returns check) ->
  (forall assert, assert ∈ assertions test -> assertion_returns assert) ->
  snd (subtest test handler) = Return.
Proof.
  intros Hnew Hchecks Hasserts. unfold subtest. rewrite Hnew.
  pose proof (run_checks_returns CallPrecheck (precheck test)
                {| t := newT; trace := [] |}) as Hr1.
  destruct (run_checks CallPrecheck (precheck test) _) as [s1 c1].
  cbn in Hr1. rewrite Hr1.
  2:{ intros c Hc. apply Hchecks, elem_of_app. now left. }
  rewrite run_modifiers_spec. cbn.
  match goal with
  | |- context [run_assertions ?a ?r ?s] =>
      pose proof (run_assertions_returns a r s Hasserts) as Hr3;
      destruct (run_assertions a r s) as [s3 c3]
  end.
  cbn in Hr3. subst c3. apply run_checks_returns.
  intros c Hc. apply Hchecks, elem_of_app. now right.
Qed.

(** The list of calls of a sub-test: in this order, the pre-checks,
    http.NewRequest on the stored method, route and body, the modifiers,
    the handler once, the assertions and the post-checks, each list in
    registration order.  A sub-test that is stopped (a check or assertion
    that does not return, a request that cannot be constructed) has made
    a prefix of these calls; one whose checks and assertions all return
    has made all of them. *)
Theorem Run_order (test : TestConfig) (handler : Handler) :
  let r := subtest test handler in
  Run [test] handler = [(name test, r)] /\
  (forall err,
     http_NewRequest (method test) (route test) (body test) = Err err ->
     trace (fst r) `prefix_of`
       map CallPrecheck (precheck test) ++
       [CallNewRequest (method test) (route test) (body test)]) /\
  (forall req,
     http_NewRequest (method test) (route test) (body test) = Ok req ->
     trace (fst r) `prefix_of` steps test req /\
     (snd r = Return -> trace (fst r) = steps test req) /\
     ((forall check, check ∈ precheck test ++ postcheck test ->
         check_returns check) ->
      (forall assert, assert ∈ assertions test -> assertion_returns assert) ->
      snd r = Return /\ trace (fst r) = steps test req)).
Proof.
  intros r. split; [| split].
  - cbn. fold r. now destruct (snd r).
  - intros err Hnew. now apply subtest_trace_construction_fails with err.
  - intros req Hnew.
    destruct (subtest_trace_constructed test handler req Hnew) as [Hpre Hfull].
    split; [exact Hpre | split; [exact Hfull |]].
    intros Hchecks Hasserts.
    pose proof (subtest_returns test handler req Hnew Hchecks Hasserts) as Hret.
    split; [exact Hret | now apply Hfull].
Qed.

(** *** The sub-test and the plan *)

Lemma execute_app (handler : Handler) (l1 l2 : list Step) (m : Machine) :
  execute handler (l1 ++ l2) m =
    match execute handler l1 m with
    | (m', Return) => execute handler l2 m'
    | (m', c) => (m', c)
    end.
Proof.
  revert m. induction l1 as [| st l1 IH]; intros m; cbn [app execute].
  - reflexivity.
  - destruct (step handler st m) as [m' [| | v]]; [apply IH | reflexivity ..].
Qed.

Lemma execute_prechecks (handler : Handler) (checks : list Check) (m : Machine) :
  execute handler (map StepPrecheck checks) m =
    ({| m_t := t (fst (run_checks CallPrecheck checks
                         {| t := m_t m; trace := m_trace m |}));
        m_req := m_req m; m_rec := m_rec m;
        m_trace := trace (fst (run_checks CallPrecheck checks
                                 {| t := m_t m; trace := m_trace m |})) |},
     snd (run_checks CallPrecheck checks {| t := m_t m; trace := m_trace m |})).
Proof.
  revert m. induction checks as [| check checks IH]; intros m;
    cbn [map execute run_checks step].
  - now destruct m.
  - cbn [t trace]. destruct (check (m_t m)) as [t' [| | v]]; cbn [fst snd emit];
      [| reflexivity ..].
    rewrite IH. reflexivity.
Qed.

Lemma execute_postchecks (handler : Handler) (checks : list Check) (m : Machine) :
  execute handler (map StepPostcheck checks) m =
    ({| m_t := t (fst (run_checks CallPostcheck checks
                         {| t := m_t m; trace := m_trace m |}));
        m_req := m_req m; m_rec := m_rec m;
        m_trace := trace (fst (run_checks CallPostcheck checks
                                 {| t := m_t m; trace := m_trace m |})) |},
     snd (run_checks CallPostcheck checks {| t := m_t m; trace := m_trace m |})).
Proof.
  revert m. induction checks as [| check checks IH]; intros m;
    cbn [map execute run_checks step].
  - now destruct m.
  - cbn [t trace]. destruct (check (m_t m)) as [t' [| | v]]; cbn [fst snd emit];
      [| reflexivity ..].
    rewrite IH. reflexivity.
Qed.

Lemma execute_modifiers (handler : Handler) (mods : list RequestModifier)
    (m : Machine) (req : Request) :
  m_req m = Some req ->
  execute handler (map StepModifier mods) m =
    ({| m_t := m_t m;
        m_req := Some (fold_left (fun req modifier => modifier req) mods req);
        m_rec := m_rec m;
        m_trace := m_trace m ++ map CallModifier mods |}, Return).
Proof.
  revert m req. induction mods as [| modifier mods IH]; intros m req Hreq;
    cbn [map execute step fold_left].
  - rewrite app_nil_r. destruct m. cbn in Hreq. now subst.
  - rewrite Hreq. rewrite (IH _ (modifier req)) by reflexivity.
    cbn. now rewrite <- app_assoc.
Qed.

Lemma execute_assertions (handler : Handler) (asserts : list ResponseAssertion)
    (m : Machine) (recorder : ResponseRecorder) :
  m_rec m = Some recorder ->
  execute handler (map StepAssertion asserts) m =
    ({| m_t := t (fst (run_assertions asserts recorder
                         {| t := m_t m; trace := m_trace m |}));
        m_req := m_req m; m_rec := m_rec m;
        m_trace := trace (fst (run_assertions asserts recorder
                                 {| t := m_t m; trace := m_trace m |})) |},
     snd (run_assertions asserts recorder {| t := m_t m; trace := m_trace m |})).
Proof.
  revert m. induction asserts as [| assert asserts IH]; intros m Hrec;
    cbn [map execute run_assertions step].
  - now destruct m.
  - rewrite Hrec. cbn [t trace].
    destruct (assert (m_t m) recorder) as [t' [| | v]]; cbn [fst snd emit];
      [| reflexivity ..].
    rewrite IH by reflexivity. reflexivity.
Qed.

Lemma subtest_run_plan (test : TestConfig) (handler : Handler) :
  subtest test handler = run_plan test handler.
Proof.
  unfold run_plan, plan, subtest.
  rewrite execute_app, execute_prechecks. cbn [m_t m_trace m_req m_rec].
  destruct (run_checks CallPrecheck (precheck test) _) as [[t1 tr1] [| | v]];
    cbn [fst snd t trace]; [| reflexivity ..].
  rewrite execute_app. cbn [execute step m_t m_trace m_req m_rec].
  destruct (http_NewRequest (method test) (route test) (body test))
    as [req | err]; [| reflexivity].
  rewrite execute_app, (execute_modifiers _ _ _ req) by reflexivity.
  rewrite run_modifiers_spec. cbn [m_t m_trace m_req m_rec emit t trace].
  rewrite execute_app. cbn [execute step m_t m_trace m_req m_rec].
  rewrite execute_app,
    (execute_assertions _ _ _
       (handler NewRecorder
          (fold_left (fun req modifier => modifier req) (modifiers test) req)))
    by reflexivity.
  cbn [m_t m_trace m_req m_rec].
  destruct (run_assertions (assertions test) _ _) as [[t3 tr3] [| | v]];
    cbn [fst snd t trace]; [| reflexivity ..].
  rewrite execute_postchecks. cbn [m_t m_trace m_req m_rec].
  now destruct (run_checks CallPostcheck (postcheck test) _) as [[t4 tr4] c4].
Qed.

Lemma run_checks_fold (ev : Check -> Event) (checks : list Check) (s : St) :
  (forall check, check ∈ checks -> check_returns check) ->
  t (fst (run_checks ev checks s)) =
    fold_left (fun t0 (check : Check) => fst (check t0)) checks (t s).
Proof.
  revert s. induction checks as [| check checks IH]; intros s Hall; cbn;
    [reflexivity |].
  pose proof (Hall check (list_elem_of_here _ _) (t s)) as Hr.
  destruct (check (t s)) as [t' c]. cbn in Hr. subst c. cbn.
  rewrite IH; [reflexivity |].
  intros c Hc. apply Hall. now apply list_elem_of_further.
Qed.

Lemma run_assertions_fold (asserts : list ResponseAssertion)
    (recorder : ResponseRecorder) (s : St) :
  (forall assert, assert ∈ asserts -> assertion_returns assert) ->
  t (fst (run_assertions asserts recorder s)) =
    fold_left (fun t0 (check : Check) => fst (check t0))
      (map (fun (assert : ResponseAssertion) t0 => assert t0 recorder) asserts)
      (t s).
Proof.
  revert s. induction asserts as [| assert asserts IH]; intros s Hall; cbn;
    [reflexivity |].
  pose proof (Hall assert (list_elem_of_here _ _) (t s) recorder) as Hr.
  destruct (assert (t s) recorder) as [t' c]. cbn in Hr. subst c. cbn.
  rewrite IH; [reflexivity |].
  intros c Hc. apply Hall. now apply list_elem_of_further.
Qed.

Lemma subtest_fold (test : TestConfig) (handler : Handler) (req : Request) :
  http_NewRequest (method test) (route test) (body test) = Ok req ->
  (forall check, check ∈ precheck test ++ postcheck test -> check_returns check) ->
  (forall assert, assert ∈ assertions test -> assertion_returns assert) ->
  t (fst (subtest test handler)) =
    fold_left (fun t0 (check : Check) => fst (check t0))
      (precheck test ++
       map (fun (assert : ResponseAssertion) t0 =>
              assert t0 (handler NewRecorder (modified test req)))
           (assertions test) ++
       postcheck test)
      newT.
Proof.
  intros Hnew Hchecks Hasserts.
  assert (Hpre : forall check, check ∈ precheck test -> check_returns check).
  { intros c Hc. apply Hchecks, elem_of_app. now left. }
  assert (Hpost : forall check, check ∈ postcheck test -> check_returns check).
  { intros c Hc. apply Hchecks, elem_of_app. now right. }
  rewrite !fold_left_app. unfold subtest, modified. rewrite Hnew.
  pose proof (run_checks_returns CallPrecheck (precheck test)
                {| t := newT; trace := [] |} Hpre) as Hr1.
  pose proof (run_checks_fold CallPrecheck (precheck test)
                {| t := newT; trace := [] |} Hpre) as Hf1.
  destruct (run_checks CallPrecheck (precheck test) _) as [s1 c1].
  cbn [fst snd t] in Hr1, Hf1. subst c1. rewrite <- Hf1.
  rewrite run_modifiers_spec. cbn [fst snd emit t trace].
  match goal with
  | |- context [run_assertions ?a ?r ?s] =>
      pose proof (run_assertions_returns a r s Hasserts) as Hr3;
      pose proof (run_assertions_fold a r s Hasserts) as Hf3;
      destruct (run_assertions a r s) as [s3 c3]
  end.
  cbn [fst snd t emit] in Hr3, Hf3. subst c3.
  rewrite (run_checks_fold CallPostcheck (postcheck test) s3 Hpost), Hf3.
  reflexivity.
Qed.


End Order.

(** ** Sub-tests and their outcome *)

Section Outcome.
Context `{GoStdlib}.

Lemma Header_Get_Set (h : gmap string (list string)) (key value : string) :
  Header_Get (Header_Set h key value) key = value.
Proof. unfold Header_Get, Header_Set. now rewrite lookup_insert_eq. Qed.

Lemma Header_Get_Set_other (h : gmap string (list string))
    (key key' value : string) :
  CanonicalMIMEHeaderKey key <> CanonicalMIMEHeaderKey key' ->
  Header_Get (Header_Set h key value) key' = Header_Get h key'.
Proof.
  intros Hne. unfold Header_Get, Header_Set. now rewrite lookup_insert_ne.
Qed.

Lemma RequestJSON_marshalled (d : Any) (s : string) :
  json_Marshal d = Ok s ->
  RequestJSON d =
    Val (fun test =>
      {| name := name test; method := method test; route := route test;
         body := s;
         modifiers := modifiers test ++ [set_content_type_json];
         assertions := assertions test;
         precheck := precheck test; postcheck := postcheck test |}).
Proof. intros Hm. unfold RequestJSON. now rewrite Hm. Qed.

(** Nothing the package offers stores a check in [postcheck]. *)
Lemma package_option_postcheck (option : TestOption) (test : TestConfig) :
  package_option option -> postcheck (option test) = postcheck test.
Proof.
  intros Hopt. destruct Hopt; try reflexivity.
  unfold RequestJSON in *. destruct (json_Marshal d); [| discriminate].
  match goal with Heq : Val _ = Val _ |- _ => injection Heq as <- end.
  reflexivity.
Qed.

Lemma Test_postcheck_empty (nm : string) (options : list TestOption) :
  Forall package_option options -> postcheck (Test nm options) = [].
Proof.
  unfold Test.
  set (test := {| name := nm; method := ""; route := ""; body := "";
                  modifiers := []; assertions := [];
                  precheck := []; postcheck := [] |}).
  assert (Hinit : postcheck test = []) by reflexivity.
  clearbody test. revert test Hinit.
  induction options as [| option options IH]; intros test Hinit Hall; cbn.
  - exact Hinit.
  - apply Forall_cons in Hall as [Hopt Hall]. apply IH; [| exact Hall].
    now rewrite package_option_postcheck.
Qed.

(** C1: what [After] does in the source.  The check goes to the end of a
    copy of [postcheck] and the result is stored in [precheck]; [postcheck]
    is left as it was.  After [Before a] and [After b], [precheck] is
    [[b]] and [postcheck] is empty. *)
Theorem After_stores_in_precheck :
  (forall (check : Check) (test : TestConfig),
     precheck (After check test) = postcheck test ++ [check] /\
     postcheck (After check test) = postcheck test) /\
  (forall (nm : string) (a b : Check),
     precheck (Test nm [Before a; After b]) = [b] /\
     postcheck (Test nm [Before a; After b]) = []).
Proof. split; intros; split; reflexivity. Qed.

(** C3, as amended: a case without assertions whose checks are quiet
    reports success when the request can be constructed. *)
Theorem no_assertions_success
    (test : TestConfig) (handler : Handler) (req : Request) :
  assertions test = [] ->
  http_NewRequest (method test) (route test) (body test) = Ok req ->
  (forall check, check ∈ precheck test ++ postcheck test -> quiet check) ->
  reports_success (subtest test handler) = true.
Proof.
  intros Hno Hnew Hquiet. unfold reports_success, reports_failure, subtest.
  rewrite Hnew, Hno.
  destruct (run_checks_quiet CallPrecheck (precheck test)
              {| t := newT; trace := [] |}) as [Hr1 Hf1].
  { intros c Hc. apply Hquiet, elem_of_app. now left. }
  destruct (run_checks CallPrecheck (precheck test) _) as [s1 c1].
  cbn in Hr1, Hf1. subst c1. rewrite run_modifiers_spec. cbn.
  match goal with
  | |- context [run_checks CallPostcheck ?cs ?s] =>
      destruct (run_checks_quiet CallPostcheck cs s) as [Hr4 Hf4]
  end.
  { intros c Hc. apply Hquiet, elem_of_app. now right. }
  rewrite Hr4, Hf4. cbn. now rewrite Hf1.
Qed.

(** C5: [RequestJSON d] marshals [d] when it is evaluated.  If that
    fails it panics, so whatever was to use the option (building a case,
    running the set) is never reached; if it succeeds the option sets
    the body to the JSON text and appends one modifier, which sets
    Content-Type to application/json on the request. *)
Theorem RequestJSON_spec (d : Any) :
  (forall err, json_Marshal d = Err err ->
     RequestJSON d = PanicWith err /\
     forall (B : Type) (k : TestOption -> go B),
       go_bind (RequestJSON d) k = PanicWith err) /\
  (forall s, json_Marshal d = Ok s ->
     exists option, RequestJSON d = Val option /\
       forall test,
         body (option test) = s /\
         modifiers (option test) = modifiers test ++ [set_content_type_json] /\
         name (option test) = name test /\
         method (option test) = method test /\
         route (option test) = route test /\
         assertions (option test) = assertions test /\
         precheck (option test) = precheck test /\
         postcheck (option test) = postcheck test) /\
  (forall req,
     Header_Get (ReqHeader (set_content_type_json req)) "Content-Type" =
       "application/json" /\
     Method (set_content_type_json req) = Method req /\
     URL (set_content_type_json req) = URL req /\
     ReqBody (set_content_type_json req) = ReqBody req).
Proof.
  split; [| split].
  - intros err Hm. unfold RequestJSON. rewrite Hm. split; reflexivity.
  - intros s Hm. eexists. split; [exact (RequestJSON_marshalled d s Hm) |].
    intros test. repeat split.
  - intros req. repeat split. apply Header_Get_Set.
Qed.

(** C6, as amended: the status assertion reports a failure exactly when
    the expected status differs from the recorded one; a case with this
    single assertion, quiet checks and a request that can be constructed,
    run against a handler that always answers S, fails exactly when
    E differs from S. *)
Theorem ResponseStatus_fails_iff
    (E S : Z) (test : TestConfig) (handler : Handler) (req : Request) :
  (forall t0 rr, Code rr = S ->
     ResponseStatus_assertion E t0 rr =
       (if decide (E = S) then t0
        else t_Errorf t0 "Unexpected status code: recieved [%d], want [%d]"
               [AInt S; AInt E],
        Return)) /\
  (assertions test = [ResponseStatus_assertion E] ->
   http_NewRequest (method test) (route test) (body test) = Ok req ->
   (forall check, check ∈ precheck test ++ postcheck test -> quiet check) ->
   (forall recorder r, Code (handler recorder r) = S) ->
   (reports_failure (subtest test handler) = true <-> E <> S)).
Proof.
  assert (Hassert : forall t0 rr, Code rr = S ->
     ResponseStatus_assertion E t0 rr =
       (if decide (E = S) then t0
        else t_Errorf t0 "Unexpected status code: recieved [%d], want [%d]"
               [AInt S; AInt E],
        Return)).
  { intros t0 rr <-. unfold ResponseStatus_assertion.
    destruct (Z.eqb_spec E (Code rr)) as [-> | Hne]; cbn.
    - now rewrite decide_True.
    - now rewrite decide_False. }
  split; [exact Hassert |].
  intros Hone Hnew Hquiet Hcode. unfold reports_failure, subtest.
  rewrite Hnew, Hone.
  destruct (run_checks_quiet CallPrecheck (precheck test)
              {| t := newT; trace := [] |}) as [Hr1 Hf1].
  { intros c Hc. apply Hquiet, elem_of_app. now left. }
  destruct (run_checks CallPrecheck (precheck test) _) as [s1 c1].
  cbn in Hr1, Hf1. subst c1. rewrite run_modifiers_spec. cbn.
  rewrite Hassert by apply Hcode.
  match goal with
  | |- context [run_checks CallPostcheck ?cs ?s] =>
      destruct (run_checks_quiet CallPostcheck cs s) as [Hr4 Hf4]
  end.
  { intros c Hc. apply Hquiet, elem_of_app. now right. }
  rewrite Hr4, Hf4. cbn. rewrite orb_false_r.
  destruct (decide (E = S)) as [Heq | Hne]; cbn.
  - rewrite Hf1. split; [discriminate | intros Hne; now destruct Hne].
  - split; [now intros _ | reflexivity].
Qed.

(** C8: a header option followed by a JSON option, and the two in the
    other order.  The modifiers are registered and called in declaration
    order and the handler receives the request after both.  The value
    set last is the one found under its key; the other header is found
    too when the two keys differ after canonicalisation, and when they
    do not, the later value has replaced the earlier one. *)
Theorem header_modifiers_declaration_order
    (nm header value : string) (d : Any) (s : string)
    (handler : Handler) (req : Request) :
  json_Marshal d = Ok s ->
  http_NewRequest "" "" s = Ok req ->
  exists json, RequestJSON d = Val json /\
    modifiers (Test nm [RequestHeader header value; json]) =
      [set_header header value; set_content_type_json] /\
    modifiers (Test nm [json; RequestHeader header value]) =
      [set_content_type_json; set_header header value] /\
    (exists req1,
       trace (fst (subtest (Test nm [RequestHeader header value; json]) handler)) =
         [CallNewRequest "" "" s; CallModifier (set_header header value);
          CallModifier set_content_type_json; CallServeHTTP req1] /\
       dispatched (subtest (Test nm [RequestHeader header value; json]) handler) =
         [req1] /\
       Header_Get (ReqHeader req1) "Content-Type" = "application/json" /\
       (CanonicalMIMEHeaderKey header <> CanonicalMIMEHeaderKey "Content-Type" ->
        Header_Get (ReqHeader req1) header = value)) /\
    (exists req2,
       trace (fst (subtest (Test nm [json; RequestHeader header value]) handler)) =
         [CallNewRequest "" "" s; CallModifier set_content_type_json;
          CallModifier (set_header header value); CallServeHTTP req2] /\
       dispatched (subtest (Test nm [json; RequestHeader header value]) handler) =
         [req2] /\
       Header_Get (ReqHeader req2) header = value /\
       (CanonicalMIMEHeaderKey header <> CanonicalMIMEHeaderKey "Content-Type" ->
        Header_Get (ReqHeader req2) "Content-Type" = "application/json") /\
       (CanonicalMIMEHeaderKey header = CanonicalMIMEHeaderKey "Content-Type" ->
        Header_Get (ReqHeader req2) "Content-Type" = value)) /\
    (forall header' value' req0,
       http_NewRequest "" "" "" = Ok req0 ->
       exists req3,
         dispatched (subtest (Test nm [RequestHeader header value;
                                       RequestHeader header' value']) handler) =
           [req3] /\
         Header_Get (ReqHeader req3) header' = value' /\
         (CanonicalMIMEHeaderKey header <> CanonicalMIMEHeaderKey header' ->
          Header_Get (ReqHeader req3) header = value)).
Proof.
  intros Hm Hnew. rewrite (RequestJSON_marshalled d s Hm).
  eexists. split; [reflexivity |]. split; [reflexivity |]. split; [reflexivity |].
  split; [| split].
  - eexists. unfold subtest, dispatched. cbn. rewrite Hnew.
    cbn -[Header_Get Header_Set].
    split; [reflexivity |]. split; [reflexivity |].
    unfold set_content_type_json, set_header. cbn [ReqHeader]. split.
    + apply Header_Get_Set.
    + intros Hne. rewrite Header_Get_Set_other by congruence.
      apply Header_Get_Set.
  - eexists. unfold subtest, dispatched. cbn. rewrite Hnew.
    cbn -[Header_Get Header_Set].
    split; [reflexivity |]. split; [reflexivity |].
    unfold set_content_type_json, set_header. cbn [ReqHeader]. split; [| split].
    + apply Header_Get_Set.
    + intros Hne. rewrite Header_Get_Set_other by exact Hne.
      apply Header_Get_Set.
    + intros Heq. unfold Header_Get, Header_Set. rewrite <- Heq.
      now rewrite lookup_insert_eq.
  - intros header' value' req0 Hnew0. eexists.
    unfold subtest, dispatched. cbn. rewrite Hnew0.
    cbn -[Header_Get Header_Set].
    split; [reflexivity |]. unfold set_header. cbn [ReqHeader]. split.
    + apply Header_Get_Set.
    + intros Hne. rewrite Header_Get_Set_other by congruence.
      apply Header_Get_Set.
Qed.

End Outcome.

(** * Further properties of the package *)

(** ** What each assertion reports *)

Section Assertions.
Context `{GoStdlib}.

(** X5: The body assertion passes exactly when the recorded body is the
    expected text, byte for byte; otherwise it reports both texts and
    returns. *)
Theorem ResponseBody_fails_iff
    (expectedBody : string) (t0 : T) (rr : ResponseRecorder) :
  ResponseBody_assertion expectedBody t0 rr =
    (if decide (Body rr = expectedBody) then t0
     else t_Errorf t0 "Unexpected body: received\n\n%v\n\nexpected\n\n%v"
            [AStr (Body rr); AStr expectedBody],
     Return).
Proof.
  unfold ResponseBody_assertion.
  destruct (String.eqb_spec (Body rr) expectedBody) as [Heq | Hne]; cbn.
  - now rewrite decide_True.
  - now rewrite decide_False.
Qed.




(** Each assertion of the package returns, and adds to the output what
    it reports on a fresh [testing.T]; it marks the test failed exactly
    when it reports something. *)
Lemma package_assertion_appends
    (assert : ResponseAssertion) (t0 : T) (rr : ResponseRecorder) :
  package_assertion assert ->
  assert t0 rr =
    ({| failed := failed t0 || nonempty (reports_of assert rr);
        output := output t0 ++ reports_of assert rr |}, Return).
Proof.
  assert (Hid : forall t1 : T,
            (t1, Return) =
            ({| failed := failed t1 || false; output := output t1 ++ [] |}, Return)).
  { intros [f o]. cbn. now rewrite orb_false_r, app_nil_r. }
  intros Hpa. destruct Hpa; unfold reports_of.
  - unfold ResponseStatus_assertion.
    destruct (negb _); cbn; [now rewrite orb_true_r | apply Hid].
  - unfold ResponseBody_assertion.
    destruct (negb _); cbn; [now rewrite orb_true_r | apply Hid].
  - unfold ResponseHeader_assertion.
    destruct (negb _); cbn; [now rewrite orb_true_r | apply Hid].
  - unfold ResponseJsonField_assertion.
    destruct (json_Unmarshal (Body rr)) as [m [e |]];
      destruct (iface_neq_string _ _); unfold t_Errorf; cbn;
      rewrite ?orb_true_r, <- ?app_assoc; try reflexivity; apply Hid.
  - unfold ResponseJsonFieldPattern_assertion.
    destruct (json_Unmarshal (Body rr)) as [m [e |]];
      destruct (assert_string _) as [actual [|]];
      try destruct (regexp_MatchString pattern actual) as [[|] ?];
      unfold t_Errorf; cbn;
      rewrite ?orb_true_r, <- ?app_assoc; try reflexivity; apply Hid.
Qed.

Lemma nonempty_app {A : Type} (l k : list A) :
  nonempty (l ++ k) = nonempty l || nonempty k.
Proof. now destruct l. Qed.

Lemma run_assertions_package
    (asserts : list ResponseAssertion) (rr : ResponseRecorder) (s : St) :
  Forall package_assertion asserts ->
  run_assertions asserts rr s =
    ({| t := {| failed := failed (t s) ||
                          nonempty (flat_map (fun a => reports_of a rr) asserts);
                output := output (t s) ++
                          flat_map (fun a => reports_of a rr) asserts |};
        trace := trace s ++ map CallAssert asserts |}, Return).
Proof.
  revert s. induction asserts as [| assert asserts IH]; intros s Hall.
  - cbn. rewrite orb_false_r, !app_nil_r. now destruct s as [[f o] tr].
  - apply Forall_cons in Hall as [Hpa Hall]. cbn [run_assertions].
    rewrite (package_assertion_appends _ _ _ Hpa), (IH _ Hall). cbn.
    rewrite <- !app_assoc, nonempty_app, orb_assoc. reflexivity.
Qed.

(** X4: In a case without checks whose assertions come from the package,
    every assertion is called, whatever the earlier ones reported, and
    the output of the sub-test is the reports of the assertions one
    after the other in registration order; the sub-test fails exactly
    when there is such a report. *)
Theorem assertions_all_run_and_accumulate
    (test : TestConfig) (handler : Handler) (req : Request) :
  precheck test = [] ->
  postcheck test = [] ->
  http_NewRequest (method test) (route test) (body test) = Ok req ->
  Forall package_assertion (assertions test) ->
  let recorder := handler NewRecorder (modified test req) in
  let reports := flat_map (fun a => reports_of a recorder) (assertions test) in
  let r := subtest test handler in
  snd r = Return /\
  trace (fst r) = steps test req /\
  output (t (fst r)) = reports /\
  reports_failure r = nonempty reports.
Proof.
  intros Hpre Hpost Hnew Hall. cbv zeta.
  unfold subtest, steps, reports_failure, modified.
  rewrite Hpre, Hpost, Hnew. cbn [run_checks map app].
  rewrite run_modifiers_spec. cbn -[run_assertions].
  rewrite (run_assertions_package _ _ _ Hall). cbn.
  rewrite app_nil_r, orb_false_r, <- !app_assoc. repeat split.
Qed.

End Assertions.

(** ** The runner *)

Section RunnerProperties.
Context `{GoStdlib}.

Lemma omap_fmap_None {A B C : Type} (f : B -> option C) (g : A -> B)
    (l : list A) :
  (forall x, f (g x) = None) -> omap f (map g l) = [].
Proof.
  intros Hfg. induction l as [| x l IH]; cbn; [reflexivity |].
  now rewrite Hfg.
Qed.

Lemma omap_prefix {A B : Type} (f : A -> option B) (l l' : list A) :
  l `prefix_of` l' -> omap f l `prefix_of` omap f l'.
Proof. intros [k ->]. rewrite omap_app. now apply prefix_app_r. Qed.

Lemma Test_snoc (nm : string) (options : list TestOption) (option : TestOption) :
  Test nm (options ++ [option]) = option (Test nm options).
Proof. unfold Test. now rewrite fold_left_app. Qed.

(** The trace of a sub-test whose pre-checks return and whose request
    is constructed: everything up to the handler, then a prefix of the
    assertions and post-checks. *)
Lemma subtest_trace_dispatched
    (test : TestConfig) (handler : Handler) (req : Request) :
  http_NewRequest (method test) (route test) (body test) = Ok req ->
  (forall check, check ∈ precheck test -> check_returns check) ->
  exists rest,
    trace (fst (subtest test handler)) =
      map CallPrecheck (precheck test) ++
      [CallNewRequest (method test) (route test) (body test)] ++
      map CallModifier (modifiers test) ++
      [CallServeHTTP (modified test req)] ++ rest /\
    rest `prefix_of`
      map CallAssert (assertions test) ++ map CallPostcheck (postcheck test).
Proof.
  intros Hnew Hchecks. unfold subtest, modified. rewrite Hnew.
  destruct (run_checks_trace CallPrecheck (precheck test)
              {| t := newT; trace := [] |}) as (l1 & Ht1 & _ & Hr1).
  pose proof (run_checks_returns CallPrecheck (precheck test)
                {| t := newT; trace := [] |} Hchecks) as Hret.
  destruct (run_checks CallPrecheck (precheck test) _) as [s1 c1].
  cbn in Ht1, Hr1, Hret. subst c1. rewrite Hr1 in Ht1 by reflexivity.
  rewrite run_modifiers_spec. cbn [fst snd].
  set (req' := fold_left (fun req modifier => modifier req) (modifiers test) req).
  set (s2 := emit _ (CallServeHTTP req') _).
  destruct (run_assertions_trace (assertions test) (handler NewRecorder req') s2)
    as (l3 & Ht3 & Hp3 & Hr3).
  destruct (run_assertions (assertions test) _ s2) as [s3 c3].
  cbn [fst snd] in Ht3, Hr3.
  assert (Hs2 : trace s2 =
            map CallPrecheck (precheck test) ++
            [CallNewRequest (method test) (route test) (body test)] ++
            map CallModifier (modifiers test) ++ [CallServeHTTP req']).
  { subst s2. cbn. rewrite Ht1. now rewrite <- !app_assoc. }
  rewrite Hs2 in Ht3.
  destruct c3; cbn [fst snd];
    try (exists l3; rewrite Ht3, <- !app_assoc; split; [reflexivity |];
         now apply prefix_app_r).
  destruct (run_checks_trace CallPostcheck (postcheck test) s3)
    as (l4 & Ht4 & Hp4 & _).
  exists (l3 ++ l4). rewrite Ht4, Ht3, <- !app_assoc. split; [reflexivity |].
  rewrite Hr3 by reflexivity. now apply prefix_app.
Qed.

(** The calls to the handler recorded in the trace: at most one; exactly
    one, with the constructed request after every modifier, as soon as
    the pre-checks return and the request is constructed; none when the
    request cannot be constructed. *)
Lemma dispatched_modified_request (test : TestConfig) (handler : Handler) :
  length (dispatched (subtest test handler)) <= 1 /\
  (forall req,
     http_NewRequest (method test) (route test) (body test) = Ok req ->
     (forall check, check ∈ precheck test -> check_returns check) ->
     dispatched (subtest test handler) = [modified test req]) /\
  (forall err,
     http_NewRequest (method test) (route test) (body test) = Err err ->
     dispatched (subtest test handler) = []).
Proof.
  set (serve := fun e => match e with CallServeHTTP req => Some req | _ => None end).
  assert (Herr : forall err,
            http_NewRequest (method test) (route test) (body test) = Err err ->
            dispatched (subtest test handler) = []).
  { intros err Hnew.
    pose proof (subtest_trace_construction_fails test handler err Hnew) as Hp.
    apply (omap_prefix serve) in Hp. rewrite omap_app in Hp.
    rewrite (omap_fmap_None serve CallPrecheck) in Hp by reflexivity.
    cbn in Hp. now apply prefix_nil_inv in Hp. }
  split; [| split; [| exact Herr]].
  - destruct (http_NewRequest (method test) (route test) (body test))
      as [req | err] eqn:Hnew.
    + destruct (subtest_trace_constructed test handler req Hnew) as [Hp _].
      apply (omap_prefix serve), prefix_length in Hp.
      unfold dispatched. fold serve. etrans; [exact Hp |].
      unfold steps. rewrite !omap_app.
      rewrite (omap_fmap_None serve CallPrecheck),
        (omap_fmap_None serve CallModifier),
        (omap_fmap_None serve CallAssert),
        (omap_fmap_None serve CallPostcheck) by reflexivity.
      cbn. lia.
    + rewrite (Herr err eq_refl). cbn. lia.
  - intros req Hnew Hchecks.
    destruct (subtest_trace_dispatched test handler req Hnew Hchecks)
      as (rest & Htr & Hrest).
    unfold dispatched. fold serve. rewrite Htr, !omap_app.
    rewrite (omap_fmap_None serve CallPrecheck),
      (omap_fmap_None serve CallModifier) by reflexivity.
    apply (omap_prefix serve) in Hrest. rewrite omap_app in Hrest.
    rewrite (omap_fmap_None serve CallAssert),
      (omap_fmap_None serve CallPostcheck) in Hrest by reflexivity.
    apply prefix_nil_inv in Hrest. rewrite Hrest. reflexivity.
Qed.

(** X2: The sub-test consults the handler once, on a fresh recorder and
    the constructed request after every modifier in registration order.
    Two handlers that agree on that one call give the same sub-test; a
    case without checks and with a single assertion ends in what that
    assertion returns on the handler's answer to that call; and when the
    request cannot be constructed the handler has no influence. *)
Theorem handler_consulted_once
    (test : TestConfig) (handler handler' : Handler) :
  (forall req,
     http_NewRequest (method test) (route test) (body test) = Ok req ->
     handler NewRecorder (modified test req) =
       handler' NewRecorder (modified test req) ->
     subtest test handler = subtest test handler') /\
  (forall err,
     http_NewRequest (method test) (route test) (body test) = Err err ->
     subtest test handler = subtest test handler') /\
  (forall req assert,
     http_NewRequest (method test) (route test) (body test) = Ok req ->
     precheck test = [] -> postcheck test = [] ->
     assertions test = [assert] ->
     (t (fst (subtest test handler)), snd (subtest test handler)) =
       assert newT (handler NewRecorder (modified test req))).
Proof.
  split; [| split].
  - intros req Hnew Hsame. unfold subtest, modified in *. rewrite Hnew.
    destruct (run_checks CallPrecheck (precheck test) _) as [s1 [| | v]];
      [| reflexivity ..].
    rewrite run_modifiers_spec. cbn [fst snd]. now rewrite Hsame.
  - intros err Hnew. unfold subtest. now rewrite Hnew.
  - intros req assert Hnew Hpre Hpost Hone. unfold subtest, modified.
    rewrite Hnew, Hpre, Hpost, Hone. cbn [run_checks].
    rewrite run_modifiers_spec. cbn [run_assertions emit t trace].
    destruct (assert newT _) as [t' [| | v]]; reflexivity.
Qed.

(** X3: A request that cannot be constructed ends the sub-test at once: one
    Fatal report with the error is added to what the pre-checks wrote,
    the test is marked failed, neither the handler nor any assertion or
    post-check is called, and the runner goes on with the next case. *)
Theorem construction_failure_stops_subtest
    (test : TestConfig) (handler : Handler) (err : error) (rest : TestSet) :
  http_NewRequest (method test) (route test) (body test) = Err err ->
  (forall check, check ∈ precheck test -> check_returns check) ->
  let r := subtest test handler in
  snd r = Goexit /\
  failed (t (fst r)) = true /\
  (exists before, output (t (fst r)) = before ++ [Fatal [AErr err]]) /\
  trace (fst r) =
    map CallPrecheck (precheck test) ++
    [CallNewRequest (method test) (route test) (body test)] /\
  Run (test :: rest) handler = (name test, r) :: Run rest handler.
Proof.
  intros Hnew Hchecks r.
  assert (Hr : snd r = Goexit /\ failed (t (fst r)) = true /\
               (exists before, output (t (fst r)) = before ++ [Fatal [AErr err]]) /\
               trace (fst r) =
                 map CallPrecheck (precheck test) ++
                 [CallNewRequest (method test) (route test) (body test)]).
  { subst r. unfold subtest. rewrite Hnew.
    destruct (run_checks_trace CallPrecheck (precheck test)
                {| t := newT; trace := [] |}) as (l1 & Ht1 & _ & Hr1).
    pose proof (run_checks_returns CallPrecheck (precheck test)
                  {| t := newT; trace := [] |} Hchecks) as Hret.
    destruct (run_checks CallPrecheck (precheck test) _) as [s1 c1].
    cbn in Ht1, Hr1, Hret. subst c1. cbn.
    rewrite Ht1, Hr1 by reflexivity. repeat split. now eexists. }
  destruct Hr as (Hctl & Hf & Hout & Htr). repeat split; try assumption.
  cbn [Run]. fold r. now rewrite Hctl.
Qed.

(** X14: No case built by [Test] from the options of the package has a
    post-check: [postcheck] stays empty, and the runner never calls a
    post-check for it. *)
Theorem package_case_runs_no_postcheck
    (nm : string) (options : list TestOption) (handler : Handler) :
  Forall package_option options ->
  postcheck (Test nm options) = [] /\
  forall check,
    CallPostcheck check ∉ trace (fst (subtest (Test nm options) handler)).
Proof.
  intros Hall. pose proof (Test_postcheck_empty nm options Hall) as Hpost.
  split; [exact Hpost |]. intros check Hin.
  set (test := Test nm options) in *.
  assert (Hsteps : exists l, trace (fst (subtest test handler)) `prefix_of` l /\
                             CallPostcheck check ∉ l).
  { destruct (http_NewRequest (method test) (route test) (body test))
      as [req | err] eqn:Hnew.
    - exists (steps test req).
      split; [apply (subtest_trace_constructed test handler req Hnew) |].
      unfold steps. rewrite Hpost. cbn [map]. rewrite app_nil_r.
      rewrite !elem_of_app, !list_elem_of_fmap, !list_elem_of_singleton.
      intros [(c & Hc & _) | [Hc | [(c & Hc & _) | [Hc | (c & Hc & _)]]]];
        discriminate.
    - exists (map CallPrecheck (precheck test) ++
              [CallNewRequest (method test) (route test) (body test)]).
      split; [now apply subtest_trace_construction_fails with err |].
      rewrite elem_of_app, list_elem_of_fmap, list_elem_of_singleton.
      intros [(c & Hc & _) | Hc]; discriminate. }
  destruct Hsteps as (l & [k ->] & Hnot).
  apply Hnot, elem_of_app. now left.
Qed.

(** X15: [After] discards the pre-checks registered so far: whatever options
    of the package come first, after [After check] the only pre-check
    of the case is [check]. *)
Theorem After_discards_prechecks
    (nm : string) (options : list TestOption) (check : Check) :
  Forall package_option options ->
  precheck (Test nm (options ++ [After check])) = [check].
Proof.
  intros Hall. rewrite Test_snoc. unfold After. cbn.
  now rewrite (Test_postcheck_empty nm options Hall).
Qed.

End RunnerProperties.

(** ** The builder *)

Section Builder.
Context `{GoStdlib}.

Lemma fold_options_keeps {A : Type} (field : TestConfig -> A)
    (options : list TestOption) (test : TestConfig) :
  Forall (keeps field) options ->
  field (fold_left (fun test option => option test) options test) = field test.
Proof.
  intros Hall. revert test.
  induction Hall as [| o options Ho Hall IH]; intros test; cbn; [reflexivity |].
  rewrite IH. apply Ho.
Qed.

Lemma Test_field_last {A : Type} (field : TestConfig -> A) (nm : string)
    (before after : list TestOption) (option : TestOption) :
  Forall (keeps field) after ->
  field (Test nm (before ++ option :: after)) = field (option (Test nm before)).
Proof.
  intros Hall. unfold Test. cbv zeta. rewrite fold_left_app. cbn [fold_left].
  now apply fold_options_keeps.
Qed.

(** X9: The method, the route and the body of a case are the ones of the
    last option that sets them, wherever it stands among the options;
    without such an option they are empty. *)
Theorem last_setter_wins (nm : string) (before after : list TestOption) :
  (forall m, Forall (keeps method) after ->
     method (Test nm (before ++ RequestMethod m :: after)) = m) /\
  (forall rel, Forall (keeps route) after ->
     route (Test nm (before ++ RequestRel rel :: after)) = rel) /\
  (forall b, Forall (keeps body) after ->
     body (Test nm (before ++ RequestBody b :: after)) = b) /\
  (forall d s json, json_Marshal d = Ok s -> RequestJSON d = Val json ->
     Forall (keeps body) after ->
     body (Test nm (before ++ json :: after)) = s) /\
  (Forall (keeps method) after -> method (Test nm after) = "") /\
  (Forall (keeps route) after -> route (Test nm after) = "") /\
  (Forall (keeps body) after -> body (Test nm after) = "").
Proof.
  assert (Hdefault : forall (A : Type) (field : TestConfig -> A),
            Forall (keeps field) after ->
            field (Test nm after) =
            field {| name := nm; method := ""; route := ""; body := "";
                     modifiers := []; assertions := [];
                     precheck := []; postcheck := [] |}).
  { intros A field Hall. unfold Test. cbv zeta.
    now apply fold_options_keeps. }
  repeat split.
  - intros m Hall. now rewrite Test_field_last.
  - intros rel Hall. now rewrite Test_field_last.
  - intros b Hall. now rewrite Test_field_last.
  - intros d s json Hm Hjson Hall. rewrite Test_field_last by exact Hall.
    rewrite (RequestJSON_marshalled d s Hm) in Hjson.
    injection Hjson as <-. reflexivity.
  - intros Hall. now rewrite (Hdefault _ method Hall).
  - intros Hall. now rewrite (Hdefault _ route Hall).
  - intros Hall. now rewrite (Hdefault _ body Hall).
Qed.

Lemma package_option_keeps (option : TestOption) :
  package_option option -> keeps name option.
Proof.
  intros Hopt. destruct Hopt; try (intros ?; reflexivity).
  unfold RequestJSON in *. destruct (json_Marshal d); [| discriminate].
  match goal with Heq : Val _ = Val _ |- _ => injection Heq as <- end.
  intros ?. reflexivity.
Qed.

(** X10: No option of the package changes the name given to [Test]. *)
Theorem Test_name_is_kept (nm : string) (options : list TestOption) :
  Forall package_option options -> name (Test nm options) = nm.
Proof.
  intros Hall. unfold Test. cbv zeta.
  rewrite (fold_options_keeps name); [reflexivity |].
  eapply Forall_impl; [exact Hall |].
  intros o Ho. now apply package_option_keeps.
Qed.

(** X11: [RequestBody] after [RequestJSON] replaces the body but not the
    modifier: the raw body is sent with Content-Type application/json.
    In the other order the JSON text replaces the raw body. *)
Theorem RequestBody_after_RequestJSON
    (nm : string) (d : Any) (s b : string) (handler : Handler) (req : Request) :
  json_Marshal d = Ok s ->
  http_NewRequest "" "" b = Ok req ->
  exists json, RequestJSON d = Val json /\
    body (Test nm [json; RequestBody b]) = b /\
    modifiers (Test nm [json; RequestBody b]) = [set_content_type_json] /\
    body (Test nm [RequestBody b; json]) = s /\
    exists req',
      trace (fst (subtest (Test nm [json; RequestBody b]) handler)) =
        [CallNewRequest "" "" b; CallModifier set_content_type_json;
         CallServeHTTP req'] /\
      Header_Get (ReqHeader req') "Content-Type" = "application/json".
Proof.
  intros Hm Hnew. rewrite (RequestJSON_marshalled d s Hm).
  eexists. split; [reflexivity |]. repeat (split; [reflexivity |]).
  eexists. unfold subtest. cbn. rewrite Hnew. cbn -[Header_Get Header_Set].
  split; [reflexivity |]. unfold set_content_type_json. cbn [ReqHeader].
  apply Header_Get_Set.
Qed.

Lemma Test_header_options (nm : string) (hs : list (string * string)) :
  Test nm (map header_option hs) =
    {| name := nm; method := ""; route := ""; body := "";
       modifiers := map (fun hv => set_header (fst hv) (snd hv)) hs;
       assertions := []; precheck := []; postcheck := [] |}.
Proof.
  induction hs as [| hv hs IH] using rev_ind; [reflexivity |].
  rewrite !map_app. cbn [map]. rewrite Test_snoc, IH. reflexivity.
Qed.

(** X12: Options register in the order they are given: a list of [Before]
    options gives its checks as pre-checks, a list of assertion options
    its assertions, a list of header options its modifiers, and an
    assertion option after any options adds its assertion at the end. *)
Theorem registration_order (nm : string) :
  (forall checks, precheck (Test nm (map Before checks)) = checks) /\
  (forall asserts,
     assertions (Test nm (map responseAssertion asserts)) = asserts) /\
  (forall hs,
     modifiers (Test nm (map header_option hs)) =
       map (fun hv => set_header (fst hv) (snd hv)) hs) /\
  (forall options assert,
     assertions (Test nm (options ++ [responseAssertion assert])) =
       assertions (Test nm options) ++ [assert]) /\
  (forall options check,
     precheck (Test nm (options ++ [Before check])) =
       precheck (Test nm options) ++ [check]).
Proof.
  repeat split.
  - intros checks. induction checks as [| c checks IH] using rev_ind;
      [reflexivity |].
    rewrite map_app. cbn [map]. rewrite Test_snoc. cbn. now rewrite IH.
  - intros asserts. induction asserts as [| a asserts IH] using rev_ind;
      [reflexivity |].
    rewrite map_app. cbn [map]. rewrite Test_snoc. cbn. now rewrite IH.
  - intros hs. now rewrite Test_header_options.
  - intros options assert. now rewrite Test_snoc.
  - intros options check. now rewrite Test_snoc.
Qed.

Lemma ReqHeader_header_modifiers (hs : list (string * string)) (req : Request) :
  ReqHeader (fold_left (fun req modifier => modifier req)
               (map (fun hv => set_header (fst hv) (snd hv)) hs) req) =
    fold_left (fun h hv => Header_Set h (fst hv) (snd hv)) hs (ReqHeader req).
Proof.
  revert req. induction hs as [| hv hs IH]; intros req; cbn; [reflexivity |].
  now rewrite IH.
Qed.

Lemma Header_Get_fold_other (hs : list (string * string))
    (h : gmap string (list string)) (key : string) :
  Forall (fun hv => CanonicalMIMEHeaderKey (fst hv) <> CanonicalMIMEHeaderKey key) hs ->
  Header_Get (fold_left (fun h hv => Header_Set h (fst hv) (snd hv)) hs h) key =
    Header_Get h key.
Proof.
  intros Hall. revert h. induction Hall as [| hv hs Hne Hall IH]; intros h; cbn;
    [reflexivity |].
  rewrite IH. now apply Header_Get_Set_other.
Qed.

(** X13: With any number of header options, the handler finds under a key
    the value of the last option whose key has the same canonical form,
    and a key that no option sets has what http.NewRequest gave it. *)
Theorem last_header_wins
    (nm : string) (hs : list (string * string)) (handler : Handler)
    (req : Request) :
  http_NewRequest "" "" "" = Ok req ->
  exists req',
    dispatched (subtest (Test nm (map header_option hs)) handler) = [req'] /\
    (forall hs1 key' key value hs2,
       hs = hs1 ++ (key', value) :: hs2 ->
       CanonicalMIMEHeaderKey key' = CanonicalMIMEHeaderKey key ->
       Forall (fun hv => CanonicalMIMEHeaderKey (fst hv) <>
                         CanonicalMIMEHeaderKey key) hs2 ->
       Header_Get (ReqHeader req') key = value) /\
    (forall key,
       Forall (fun hv => CanonicalMIMEHeaderKey (fst hv) <>
                         CanonicalMIMEHeaderKey key) hs ->
       Header_Get (ReqHeader req') key = Header_Get (ReqHeader req) key).
Proof.
  intros Hnew. rewrite Test_header_options. eexists. split; [| split].
  - apply (proj1 (proj2 (dispatched_modified_request _ handler)) req).
    + exact Hnew.
    + intros check Hc. cbn in Hc. now apply elem_of_nil in Hc.
  - intros hs1 key' key value hs2 -> Heq Hall. unfold modified. cbn [modifiers].
    rewrite ReqHeader_header_modifiers, fold_left_app. cbn [fold_left fst snd].
    rewrite Header_Get_fold_other by exact Hall.
    unfold Header_Get, Header_Set. rewrite Heq. now rewrite lookup_insert_eq.
  - intros key Hall. unfold modified. cbn [modifiers].
    rewrite ReqHeader_header_modifiers. now apply Header_Get_fold_other.
Qed.

End Builder.

(** ** The two versions *)

Section Versions.
Context `{GoStdlib}.

Lemma subtest_without_checks (test : TestConfig) (handler : Handler) :
  precheck test = [] -> postcheck test = [] ->
  subtest test handler = Old.subtest (forget test) handler.
Proof.
  intros Hpre Hpost. unfold subtest, Old.subtest. rewrite Hpre, Hpost. cbn.
  destruct (http_NewRequest (method test) (route test) (body test));
    [| reflexivity].
  rewrite run_modifiers_spec. cbn.
  destruct (run_assertions _ _ _) as [s3 [| |]]; reflexivity.
Qed.

(** X16: On cases without checks the current runner does what the earlier
    one did: same reports, same outcome, same calls. *)
Theorem Run_without_checks_is_old_Run (tests : TestSet) (handler : Handler) :
  Forall (fun test => precheck test = [] /\ postcheck test = []) tests ->
  Run tests handler = Old.Run (map forget tests) handler.
Proof.
  intros Hall. induction Hall as [| test tests [Hpre Hpost] Hall IH]; cbn;
    [reflexivity |].
  rewrite (subtest_without_checks test handler Hpre Hpost), IH. reflexivity.
Qed.

Lemma forget_upgrade (option : Old.TestOption) (test : TestConfig) :
  forget (upgrade option test) = option (forget test).
Proof. unfold forget, upgrade. cbn. now destruct (option _). Qed.

(** X17: The three options of the earlier version are the current ones on
    the shared fields, and a case built from options of the earlier
    version is the same case in both versions, without checks. *)
Theorem old_options_agree (nm : string) (options : list Old.TestOption) :
  forget (Test nm (map upgrade options)) = Old.Test nm options /\
  precheck (Test nm (map upgrade options)) = [] /\
  postcheck (Test nm (map upgrade options)) = [] /\
  (forall m test, upgrade (Old.RequestMethod m) test = RequestMethod m test) /\
  (forall E test, upgrade (Old.ResponseStatus E) test = ResponseStatus E test) /\
  (forall b test, upgrade (Old.ResponseBody b) test = ResponseBody b test).
Proof.
  split; [| split; [| split]].
  - induction options as [| o options IH] using rev_ind; [reflexivity |].
    rewrite map_app. cbn [map]. rewrite Test_snoc, forget_upgrade, IH.
    unfold Old.Test. now rewrite fold_left_app.
  - induction options as [| o options IH] using rev_ind; [reflexivity |].
    rewrite map_app. cbn [map]. rewrite Test_snoc. exact IH.
  - induction options as [| o options IH] using rev_ind; [reflexivity |].
    rewrite map_app. cbn [map]. rewrite Test_snoc. exact IH.
  - repeat split.
Qed.

End Versions.

(** * The package on concrete inputs, with the reference instance *)

#[local] Existing Instance Ref.stdlib.

Ltac members H :=
  repeat (apply elem_of_cons in H as [-> | H]); [.. | now apply elem_of_nil in H].

(** C1: with [Before a] and [After b], [b] is called before the request
    is constructed, [a] is not called at all, and nothing is called after
    the handler. *)
Lemma After_runs_before_request :
  trace (fst (subtest (Test "case" [Before (failing_check "a");
                                   After (failing_check "b")])
                (always 200 ""))) =
    [CallPrecheck (failing_check "b"); CallNewRequest "" "" "";
     CallServeHTTP {| Method := "GET"; URL := ""; ReqHeader := ∅; ReqBody := "" |}] /\
  output (t (fst (subtest (Test "case" [Before (failing_check "a");
                                       After (failing_check "b")])
                    (always 200 "")))) = [Errorf "b" []].
Proof. split; reflexivity. Qed.



(** C3: a case without assertions whose pre-check reports a failure does
    not report success, although the request is constructed. *)
Lemma failing_precheck_fails_case :
  assertions (Test "case" [Before (failing_check "setup")]) = [] /\
  http_NewRequest "" "" "" =
    Ok {| Method := "GET"; URL := ""; ReqHeader := ∅; ReqBody := "" |} /\
  reports_success (subtest (Test "case" [Before (failing_check "setup")])
                     (always 200 "")) = false.
Proof. repeat split. Qed.

Lemma no_assertions_success_witness :
  reports_success
    (subtest (Test "case" [RequestMethod "GET"; RequestRel "/abc";
                           Before passing_check])
       (always 500 "")) = true.
Proof.
  apply (no_assertions_success _ _
           {| Method := "GET"; URL := "/abc"; ReqHeader := ∅; ReqBody := "" |}).
  - reflexivity.
  - reflexivity.
  - intros check Hc. cbn in Hc. members Hc. intros t0. split; reflexivity.
Defined.

Lemma Run_order_witness :
  trace (fst (subtest full_case (always 200 ""))) =
    steps full_case
      {| Method := "GET"; URL := "/abc"; ReqHeader := ∅; ReqBody := "" |}.
Proof.
  apply (proj2 (proj2 (Run_order full_case (always 200 "")))
           {| Method := "GET"; URL := "/abc"; ReqHeader := ∅; ReqBody := "" |}).
  - reflexivity.
  - intros check Hc. cbn in Hc. members Hc; intros t0; reflexivity.
  - intros assert Ha. cbn in Ha. members Ha. intros t0 recorder.
    unfold ResponseStatus_assertion. now destruct (negb _).
Defined.


Lemma RequestJSON_spec_witness :
  @RequestJSON Ref.stdlib Ref.AnyChan = PanicWith "json: unsupported type: chan int" /\
  exists option, @RequestJSON Ref.stdlib (Ref.AnyStruct [("a", 1%Z)]) = Val option /\
    body (option (Test "case" [])) = "{" +:+ Ref.quote "a" +:+ ":1}".
Proof.
  split.
  - apply (@RequestJSON_spec Ref.stdlib Ref.AnyChan). reflexivity.
  - destruct (proj1 (proj2 (@RequestJSON_spec Ref.stdlib (Ref.AnyStruct [("a", 1%Z)])))
                ("{" +:+ Ref.quote "a" +:+ ":1}") eq_refl) as (option & Hval & Hopt).
    exists option. split; [exact Hval |]. apply Hopt.
Defined.

(** C6: a case whose only assertion is [ResponseStatus 200], run against
    a handler that always answers 200, fails when its method is not a
    valid one: the request is never constructed. *)
Lemma ResponseStatus_invalid_method_fails :
  assertions (Test "case" [RequestMethod "BAD METHOD"; ResponseStatus 200]) =
    [ResponseStatus_assertion 200] /\
  Code (always 200 "" NewRecorder
          {| Method := "GET"; URL := ""; ReqHeader := ∅; ReqBody := "" |}) = 200%Z /\
  reports_failure
    (subtest (Test "case" [RequestMethod "BAD METHOD"; ResponseStatus 200])
       (always 200 "")) = true /\
  output (t (fst (subtest (Test "case" [RequestMethod "BAD METHOD";
                                        ResponseStatus 200])
                    (always 200 "")))) =
    [Fatal [AErr ("net/http: invalid method " +:+ Ref.quote "BAD METHOD")]].
Proof. repeat split. Qed.

Lemma ResponseStatus_fails_iff_witness :
  (reports_failure
     (subtest (Test "RejectGET405" [RequestMethod "GET"; ResponseStatus 405])
        (always 405 "")) = true <-> 405%Z <> 405%Z) /\
  (reports_failure
     (subtest (Test "RejectGET405" [RequestMethod "GET"; ResponseStatus 200])
        (always 405 "")) = true <-> 200%Z <> 405%Z).
Proof.
  split.
  - apply (ResponseStatus_fails_iff 405 405 _ _
             {| Method := "GET"; URL := ""; ReqHeader := ∅; ReqBody := "" |}).
    + reflexivity.
    + reflexivity.
    + intros check Hc. cbn in Hc. now apply elem_of_nil in Hc.
    + reflexivity.
  - apply (ResponseStatus_fails_iff 200 405 _ _
             {| Method := "GET"; URL := ""; ReqHeader := ∅; ReqBody := "" |}).
    + reflexivity.
    + reflexivity.
    + intros check Hc. cbn in Hc. now apply elem_of_nil in Hc.
    + reflexivity.
Defined.




Lemma header_modifiers_declaration_order_witness :
  @json_Marshal Ref.stdlib (Ref.AnyStruct [("a", 1%Z)]) =
    Ok ("{" +:+ Ref.quote "a" +:+ ":1}") /\
  exists json req1,
    @RequestJSON Ref.stdlib (Ref.AnyStruct [("a", 1%Z)]) = Val json /\
    dispatched (subtest (Test "case" [RequestHeader "x" "1"; json])
                  (always 200 "")) = [req1] /\
    Header_Get (ReqHeader req1) "Content-Type" = "application/json" /\
    Header_Get (ReqHeader req1) "x" = "1".
Proof.
  split; [reflexivity |].
  destruct (@header_modifiers_declaration_order Ref.stdlib "case" "x" "1"
              (Ref.AnyStruct [("a", 1%Z)]) ("{" +:+ Ref.quote "a" +:+ ":1}")
              (always 200 "")
              {| Method := "GET"; URL := ""; ReqHeader := ∅;
                 ReqBody := "{" +:+ Ref.quote "a" +:+ ":1}" |}
              eq_refl eq_refl)
    as (json & Hjson & _ & _ & (req1 & _ & Hd & Hct & Hx) & _).
  exists json, req1. split; [exact Hjson |]. split; [exact Hd |].
  split; [exact Hct |]. apply Hx. vm_compute. discriminate.
Defined.

(** ** The further properties on concrete inputs *)




Lemma assertions_all_run_and_accumulate_witness :
  output (t (fst (subtest (Test "case" [ResponseStatus 200; ResponseBody "ok"])
                    (always 500 "no")))) =
    [Errorf "Unexpected status code: recieved [%d], want [%d]"
       [AInt 500; AInt 200];
     Errorf "Unexpected body: received\n\n%v\n\nexpected\n\n%v"
       [AStr "no"; AStr "ok"]].
Proof.
  destruct (assertions_all_run_and_accumulate
              (Test "case" [ResponseStatus 200; ResponseBody "ok"])
              (always 500 "no")
              {| Method := "GET"; URL := ""; ReqHeader := ∅; ReqBody := "" |})
    as (_ & _ & Hout & _).
  - reflexivity.
  - reflexivity.
  - reflexivity.
  - constructor; [apply pa_ResponseStatus |].
    constructor; [apply pa_ResponseBody | constructor].
  - exact Hout.
Defined.

Lemma handler_consulted_once_witness :
  (t (fst (subtest (Test "case" [RequestHeader "x" "1"; ResponseBody "1"])
             (echo_header "X"))),
   snd (subtest (Test "case" [RequestHeader "x" "1"; ResponseBody "1"])
          (echo_header "X"))) =
    ResponseBody_assertion "1" newT
      (echo_header "X" NewRecorder
         (modified (Test "case" [RequestHeader "x" "1"; ResponseBody "1"])
            {| Method := "GET"; URL := ""; ReqHeader := ∅; ReqBody := "" |})) /\
  ResponseBody_assertion "1" newT
    (echo_header "X" NewRecorder
       (modified (Test "case" [RequestHeader "x" "1"; ResponseBody "1"])
          {| Method := "GET"; URL := ""; ReqHeader := ∅; ReqBody := "" |})) =
    (newT, Return).
Proof.
  split; [| reflexivity].
  apply (proj2 (proj2 (handler_consulted_once
                         (Test "case" [RequestHeader "x" "1"; ResponseBody "1"])
                         (echo_header "X") (echo_header "X")))
           {| Method := "GET"; URL := ""; ReqHeader := ∅; ReqBody := "" |}
           (ResponseBody_assertion "1")); reflexivity.
Defined.

Lemma construction_failure_stops_subtest_witness :
  snd (subtest (Test "bad" [RequestMethod "BAD METHOD"; ResponseStatus 200])
         (always 200 "")) = Goexit /\
  map fst (Run [Test "bad" [RequestMethod "BAD METHOD"; ResponseStatus 200];
                Test "good" [ResponseStatus 200]] (always 200 "")) =
    ["bad"; "good"].
Proof.
  destruct (construction_failure_stops_subtest
              (Test "bad" [RequestMethod "BAD METHOD"; ResponseStatus 200])
              (always 200 "")
              ("net/http: invalid method " +:+ Ref.quote "BAD METHOD")
              [Test "good" [ResponseStatus 200]])
    as (Hctl & _ & _ & _ & Hrun).
  - reflexivity.
  - intros check Hc. cbn in Hc. now apply elem_of_nil in Hc.
  - split; [exact Hctl |]. rewrite Hrun. reflexivity.
Defined.

Lemma package_case_runs_no_postcheck_witness :
  postcheck (Test "case" [Before passing_check; After (failing_check "teardown");
                          ResponseStatus 200]) = [].
Proof.
  apply (package_case_runs_no_postcheck "case"
           [Before passing_check; After (failing_check "teardown");
            ResponseStatus 200] (always 200 "")).
  constructor; [apply po_Before |].
  constructor; [apply po_After |].
  constructor; [apply po_ResponseStatus | constructor].
Defined.

Lemma After_discards_prechecks_witness :
  precheck (Test "case" ([Before passing_check; Before (failing_check "setup")] ++
                         [After (failing_check "teardown")])) =
    [failing_check "teardown"].
Proof.
  apply (After_discards_prechecks "case"
           [Before passing_check; Before (failing_check "setup")]
           (failing_check "teardown")).
  constructor; [apply po_Before |].
  constructor; [apply po_Before | constructor].
Defined.

Lemma last_setter_wins_witness :
  method (Test "case" ([RequestMethod "GET"] ++
                       RequestMethod "POST" :: [ResponseStatus 200; RequestRel "/x"])) =
    "POST".
Proof.
  apply (last_setter_wins "case" [RequestMethod "GET"]
           [ResponseStatus 200; RequestRel "/x"]).
  constructor; [intros test; reflexivity |].
  constructor; [intros test; reflexivity | constructor].
Defined.

Lemma Test_name_is_kept_witness :
  name (Test "case" [RequestMethod "GET"; RequestBody "x"; ResponseBody "y"]) =
    "case".
Proof.
  apply (Test_name_is_kept "case"
           [RequestMethod "GET"; RequestBody "x"; ResponseBody "y"]).
  constructor; [apply po_RequestMethod |].
  constructor; [apply po_RequestBody |].
  constructor; [apply po_ResponseBody | constructor].
Defined.

Lemma RequestBody_after_RequestJSON_witness :
  exists json,
    @RequestJSON Ref.stdlib (Ref.AnyStruct [("a", 1%Z)]) = Val json /\
    body (Test "case" [json; RequestBody "raw"]) = "raw" /\
    modifiers (Test "case" [json; RequestBody "raw"]) = [set_content_type_json].
Proof.
  destruct (@RequestBody_after_RequestJSON Ref.stdlib "case"
              (Ref.AnyStruct [("a", 1%Z)]) ("{" +:+ Ref.quote "a" +:+ ":1}")
              "raw" (always 200 "")
              {| Method := "GET"; URL := ""; ReqHeader := ∅; ReqBody := "raw" |}
              eq_refl eq_refl)
    as (json & Hjson & Hbody & Hmods & _).
  exists json. split; [exact Hjson |]. split; [exact Hbody | exact Hmods].
Defined.

Lemma last_header_wins_witness :
  exists req',
    dispatched (subtest (Test "case" (map header_option
                                        [("x", "1"); ("X", "2"); ("y", "3")]))
                  (always 200 "")) = [req'] /\
    Header_Get (ReqHeader req') "x" = "2".
Proof.
  destruct (@last_header_wins Ref.stdlib "case"
              [("x", "1"); ("X", "2"); ("y", "3")]
              (always 200 "")
              {| Method := "GET"; URL := ""; ReqHeader := ∅; ReqBody := "" |}
              eq_refl)
    as (req' & Hd & Hlast & _).
  exists req'. split; [exact Hd |].
  apply (Hlast [("x", "1")] "X" "x" "2" [("y", "3")]);
    [reflexivity | reflexivity |].
  constructor; [vm_compute; discriminate | constructor].
Defined.

Lemma Run_without_checks_is_old_Run_witness :
  Run [Test "a" [RequestMethod "GET"; ResponseStatus 200]] (always 200 "") =
  Old.Run [Old.Test "a" [Old.RequestMethod "GET"; Old.ResponseStatus 200]]
    (always 200 "").
Proof.
  apply (Run_without_checks_is_old_Run
           [Test "a" [RequestMethod "GET"; ResponseStatus 200]] (always 200 "")).
  constructor; [split; reflexivity | constructor].
Defined.
